(** * deepdoc vision-model layer: shallow embedding of
      [deepdoc/depend/simple_cv_model.py]

    The Python module is embedded as pure functions.  A call that may raise
    returns an [Outcome]; a method that mutates an argument in place (the
    conversation list, a [BytesIO] cursor) returns the mutated object next
    to its result.  The remote services, the client libraries, the import
    machinery and the interpreter are external to the module: they appear
    as the records [Remote] and [ModuleEnv], over which every statement
    quantifies.

    Python [str] values are represented by their UTF-8 bytes
    ([String.string]); Python [int] by [Z].  A conversation is a list of
    turns that each hold a [str] under [role] and under [content], and the
    generation settings are a mapping from names to numbers: these are the
    arguments the chat methods are written for. *)

From Stdlib Require Import ZArith QArith String Ascii List Bool Lia.
From Stdlib.Strings Require Import Byte.
From stdpp Require Import gmap strings list.
Import ListNotations.
Local Open Scope Z_scope.

(** ** Python runtime: exceptions, outcomes, a few builtins *)

Module Py.

(** Classes of [Exception] instances that the module, or the libraries it
    calls, may raise.  [BackendError] stands for any failure that is a
    client library's own: of the transport, of the inference, or of the
    construction of a client. *)
Inductive ExnClass :=
| ValueError | TypeError | IndexError | KeyError
| ImportError | AttributeError | BackendError.

(** An instance of [Exception]; [exn_msg] is what [str(e)] returns. *)
Record Exn := mkExn { exn_class : ExnClass; exn_msg : string }.

Definition str (e : Exn) : string := exn_msg e.

Inductive Outcome (A : Type) :=
| Returned (a : A)
| Raised (e : Exn).
Arguments Returned {A} a.
Arguments Raised {A} e.

Definition bind {A B} (m : Outcome A) (k : A -> Outcome B) : Outcome B :=
  match m with
  | Returned a => k a
  | Raised e => Raised e
  end.

(** [try: body / except Exception as e: handler e] *)
Definition try_except {A} (body : Outcome A) (handler : Exn -> Outcome A)
  : Outcome A :=
  match body with
  | Returned a => Returned a
  | Raised e => handler e
  end.

(** Truth value of a [str] and of an optional [str] ([None] is falsy). *)
Definition truthy (s : string) : bool := negb (String.eqb s "").

Definition truthy_opt (o : option string) : bool :=
  match o with
  | Some s => truthy s
  | None => false
  end.

(** [d.get(k, dflt)] *)
Definition dict_get {V} (d : gmap string V) (k : string) (dflt : V) : V :=
  default dflt (d !! k).

(** The line feed written [\n] in the source. *)
Definition nl : string := String (ascii_of_nat 10) EmptyString.

(** [str.lower] on ASCII text: the letters A to Z are lowered, every other
    byte is kept.  On other text [str.lower] follows the Unicode case
    tables; the function of the interpreter is [str_lower] of [ModuleEnv]. *)
Definition lower_ascii (c : ascii) : ascii :=
  let n := nat_of_ascii c in
  if (Nat.leb 65 n && Nat.leb n 90)%bool then ascii_of_nat (n + 32) else c.

Fixpoint ascii_lower (s : string) : string :=
  match s with
  | EmptyString => EmptyString
  | String c r => String (lower_ascii c) (ascii_lower r)
  end.

(** [s.isascii()] *)
Fixpoint is_ascii (s : string) : bool :=
  match s with
  | EmptyString => true
  | String c r => (Nat.ltb (nat_of_ascii c) 128 && is_ascii r)%bool
  end.

(** [s.endswith(suffix)] *)
Definition endswith (s suffix : string) : bool :=
  let n := String.length s in
  let k := String.length suffix in
  (Nat.leb k n && String.eqb (substring (n - k) k s) suffix)%bool.

(** [needle in haystack] for two [str]. *)
Fixpoint contains (needle haystack : string) : bool :=
  (String.prefix needle haystack ||
   match haystack with
   | EmptyString => false
   | String _ r => contains needle r
   end)%bool.

(** [repr] of a [str] without quotes or escapes, and of a list of such. *)
Definition repr_str (s : string) : string := "'" +:+ s +:+ "'".

Fixpoint join (sep : string) (l : list string) : string :=
  match l with
  | [] => ""
  | [x] => x
  | x :: r => x +:+ sep +:+ join sep r
  end.

Definition repr_list (l : list string) : string :=
  "[" +:+ join ", " (map repr_str l) +:+ "]".

(** Splitting a [str] into its characters: a UTF-8 lead byte announces
    how many bytes the character takes. *)
Definition utf8_width (c : ascii) : nat :=
  let n := nat_of_ascii c in
  if Nat.ltb n 192 then 1%nat
  else if Nat.ltb n 224 then 2%nat
  else if Nat.ltb n 240 then 3%nat else 4%nat.

Fixpoint chars_from (s : string) (pending : nat) (cur : string) : list string :=
  match s with
  | EmptyString => if String.eqb cur "" then [] else [cur]
  | String c r =>
      match pending with
      | O => (if String.eqb cur "" then [] else [cur])
               ++ chars_from r (utf8_width c - 1)%nat (String c EmptyString)
      | S p => chars_from r p (cur +:+ String c EmptyString)
      end
  end.

Definition chars (s : string) : list string := chars_from s 0%nat "".

(** The text with the given UTF-8 bytes. *)
Definition utf8 (bytes : list nat) : string :=
  fold_right (fun n s => String (ascii_of_nat n) s) EmptyString bytes.

(** The characters that [str.strip] removes, those for which [str.isspace]
    holds: U+0009 to U+000D, U+001C to U+0020, U+0085, U+00A0, U+1680,
    U+2000 to U+200A, U+2028, U+2029, U+202F, U+205F and U+3000. *)
Definition whitespace : list string :=
  ((fun n => utf8 [n]) <$> [9; 10; 11; 12; 13; 28; 29; 30; 31; 32]%nat)
  ++ [utf8 [194; 133]%nat; utf8 [194; 160]%nat; utf8 [225; 154; 128]%nat]
  ++ ((fun n => utf8 [226; 128; n]%nat) <$> seq 128 11)
  ++ [utf8 [226; 128; 168]%nat; utf8 [226; 128; 169]%nat;
      utf8 [226; 128; 175]%nat; utf8 [226; 129; 159]%nat;
      utf8 [227; 128; 128]%nat].

Definition is_space (c : string) : bool := bool_decide (c ∈ whitespace).

(** The characters left once the leading white space is dropped. *)
Fixpoint lstrip (l : list string) : list string :=
  match l with
  | [] => []
  | c :: r => if is_space c then lstrip r else l
  end.

(** [str.strip]: white space is dropped at both ends. *)
Definition strip (s : string) : string :=
  join "" (reverse (lstrip (reverse (lstrip (chars s))))).

(** An [int] or [None], and [a + b] on two of them. *)
Inductive Number :=
| PInt (n : Z)
| PNone.

Definition type_name (a : Number) : string :=
  match a with
  | PInt _ => "int"
  | PNone => "NoneType"
  end.

Definition add (a b : Number) : Outcome Z :=
  match a, b with
  | PInt x, PInt y => Returned (x + y)
  | _, _ =>
      Raised (mkExn TypeError
                ("unsupported operand type(s) for +: '" +:+ type_name a
                 +:+ "' and '" +:+ type_name b +:+ "'"))
  end.

(** The values a prompt can be in this module: a [str], or a function
    object (see [vision_llm_describe_prompt]). *)
Inductive Obj :=
| OStr (s : string)
| OFunction (name : string).

(** [o[i]] for a non-negative literal index [i]. *)
Definition getitem_int (o : Obj) (i : nat) : Outcome Obj :=
  match o with
  | OStr s =>
      match chars s !! i with
      | Some c => Returned (OStr c)
      | None => Raised (mkExn IndexError "string index out of range")
      end
  | OFunction _ =>
      Raised (mkExn TypeError "'function' object is not subscriptable")
  end.

(** [o[k]] for a [str] key [k]. *)
Definition getitem_str (o : Obj) (k : string) : Outcome Obj :=
  match o with
  | OStr _ =>
      Raised (mkExn TypeError "string indices must be integers, not 'str'")
  | OFunction _ =>
      Raised (mkExn TypeError "'function' object is not subscriptable")
  end.

End Py.
Export Py.

(** [Outcome] is a monad; stdpp's [x ← m; k] sequences two steps. *)
Global Instance outcome_ret : MRet Outcome := @Returned.
Global Instance outcome_bind : MBind Outcome := fun _ _ k m => Py.bind m k.

(** The marker that opens every in-band error text. *)
Definition ERROR_MARK : string := "**ERROR**: ".

(** ** Images and their base64 normalisation *)

(** [io.BytesIO]: the bytes and the read position. *)
Record BytesIO := mkBytesIO { buffer : list byte; position : nat }.

(** [binary.seek(0)] *)
Definition seek (b : BytesIO) (offset : nat) : BytesIO :=
  {| buffer := buffer b; position := offset |}.

(** [binary.read()]: everything from the read position on; the position
    moves to the end. *)
Definition read (b : BytesIO) : list byte * BytesIO :=
  (drop (position b) (buffer b),
   {| buffer := buffer b;
      position := Nat.max (position b) (length (buffer b)) |}).

(** A decoded [PIL.Image] object, with the encoded bytes it was opened from. *)
Record PILImage := mkPIL { source_bytes : list byte }.

(** What callers pass as an image. *)
Inductive ImageArg :=
| AsBytesIO (b : BytesIO)
| AsBytes (data : list byte)
| AsPIL (img : PILImage)
| AsStr (s : string).

Module Base64.

Definition alphabet : string :=
  "ABCDEFGHIJKLMNOPQRSTUVWXYZabcdefghijklmnopqrstuvwxyz0123456789+/".

Definition digit (i : N) : ascii :=
  match String.get (N.to_nat i) alphabet with
  | Some c => c
  | None => "="%char
  end.

(** The four digits of a 24-bit group [n]; [pad] trailing digits are
    replaced by [=]. *)
Definition group (n : N) (pad : nat) : string :=
  let d0 := digit (N.shiftr n 18) in
  let d1 := digit (N.land (N.shiftr n 12) 63) in
  let d2 := if Nat.leb 2 pad then "="%char else digit (N.land (N.shiftr n 6) 63) in
  let d3 := if Nat.leb 1 pad then "="%char else digit (N.land n 63) in
  String d0 (String d1 (String d2 (String d3 EmptyString))).

(** [base64.b64encode(data).decode('utf-8')] *)
Fixpoint b64encode (data : list byte) : string :=
  match data with
  | [] => ""
  | [a] => group (N.shiftl (Byte.to_N a) 16) 2
  | [a; b] => group (N.lor (N.shiftl (Byte.to_N a) 16) (N.shiftl (Byte.to_N b) 8)) 1
  | a :: b :: c :: rest =>
      group (N.lor (N.lor (N.shiftl (Byte.to_N a) 16) (N.shiftl (Byte.to_N b) 8))
                   (Byte.to_N c)) 0
      +:+ b64encode rest
  end.

End Base64.

(** ** What the module finds where it is imported *)

(** The client object an instance holds, with the arguments it was built from. *)
Inductive ClientHandle :=
| OpenAI (api_key : string) (base_url : option string)
| ZhipuAI (api_key : string)
| OllamaClient (host : string)
| GenerativeModel (api_key : string) (model : string)
| Anthropic (api_key : string).

(** Which binding the guarded import at the top of the module produced for
    the name [vision_llm_describe_prompt]: the function defined in
    [prompts.py], or the literal used when both imports fail. *)
Inductive PromptsImport := ImportedFunction | FallbackText.

(** The state fixed at import time, the client libraries and the
    interpreter.
    - [client_init handle] is what the constructor of an SDK client raises
      for the arguments in [handle], if anything: [OpenAI], [ZhipuAI] and
      [anthropic.Anthropic] inspect the key they are given.
    - [str_lower] is [str.lower].  It is known by two of its laws: applied
      twice it does what it does once, and on ASCII text it lowers the
      letters A to Z and nothing else. *)
Record ModuleEnv := mkEnv {
  prompts_import : PromptsImport;
  OLLAMA_AVAILABLE : bool;          (* [from ollama import Client] worked *)
  genai_importable : bool;          (* [import google.generativeai] works *)
  anthropic_importable : bool;      (* [import anthropic] works *)
  client_init : ClientHandle -> option Exn;
  str_lower : string -> string;
  str_lower_idempotent : forall s, str_lower (str_lower s) = str_lower s;
  str_lower_ascii : forall s, is_ascii s = true -> str_lower s = ascii_lower s
}.

Definition fallback_prompt : string :=
  "请详细描述这张图片的内容，包括：" +:+ nl +:+
  "1. 图片中的主要对象和场景" +:+ nl +:+
  "2. 任何可见的文字内容" +:+ nl +:+
  "3. 图片的布局和结构" +:+ nl +:+
  "4. 如果有表格，请描述表格的结构和内容" +:+ nl +:+
  "5. 如果有图表，请描述图表的数据和趋势" +:+ nl +:+ nl +:+
  "请用中文回答，描述要准确、详细。".

Definition vision_llm_describe_prompt (env : ModuleEnv) : Obj :=
  match prompts_import env with
  | ImportedFunction => OFunction "vision_llm_describe_prompt"
  | FallbackText => OStr fallback_prompt
  end.

(** ** Backend classes and instances *)

Inductive BackendClass := GptV4 | QWenCV | Zhipu4V | OllamaCV | GeminiCV | AnthropicCV.

Global Instance BackendClass_eq_dec : EqDecision BackendClass.
Proof. solve_decision. Defined.

Definition class_name (c : BackendClass) : string :=
  match c with
  | GptV4 => "GptV4" | QWenCV => "QWenCV" | Zhipu4V => "Zhipu4V"
  | OllamaCV => "OllamaCV" | GeminiCV => "GeminiCV" | AnthropicCV => "AnthropicCV"
  end.

(** The attributes an instance carries.  [OllamaCV.__init__] does not call
    [Base.__init__] and sets no [key]. *)
Record Instance := mkInstance {
  cls : BackendClass;
  key : option string;
  model_name : string;
  lang : string;
  client : ClientHandle
}.

(** ** Requests and the remote services *)

(** One part of a multi-part user message. *)
Inductive ContentPart :=
| TextPart (text : Obj)                        (* {"type": "text", "text": ...} *)
| ImageUrlPart (url : string)                  (* {"type": "image_url", ...} *)
| ImageSourcePart (media_type data : string).  (* {"type": "image", "source": ...} *)

Record Message := mkMessage { msg_role : string; msg_content : list ContentPart }.

Record CompletionRequest := mkCompletion {
  req_model : string;
  req_messages : list Message;
  max_tokens : Z
}.

Record GenerateRequest := mkGenerate {
  gen_model : string;
  gen_prompt : Obj;
  gen_images : list ImageArg
}.

(** A turn of a conversation: a dict that holds a [str] under [role] and
    under [content] and, once attached, a list under [images]. *)
Record Turn := mkTurn {
  role : string;
  content : string;
  images : option (list ImageArg)
}.

Record ChatRequest := mkChat {
  chat_model : string;
  messages : list Turn;
  stream : bool;
  options : gmap string Q;
  keep_alive : Z
}.

(** What a reply answers when a method asks it for a token counter, which
    each method does in one way, by [reply[k]] or by [reply.get(k, d)]:
    - [Missing]: no value; [reply[k]] raises [KeyError] and
      [reply.get(k, d)] answers [d], as for a mapping without the key;
    - [Null]: the value [None], which the response objects of the ollama
      client answer for a counter that the server did not report;
    - [Count n]: the integer [n]. *)
Inductive Counter :=
| Missing
| Null
| Count (n : Z).

(** [reply.get(k, dflt)] and [reply[k]] for a counter [k]. *)
Definition counter_get (c : Counter) (dflt : Z) : Number :=
  match c with
  | Missing => PInt dflt
  | Null => PNone
  | Count n => PInt n
  end.

Definition counter_getitem (k : string) (c : Counter) : Outcome Number :=
  match c with
  | Missing => Raised (mkExn KeyError (repr_str k))
  | Null => Returned PNone
  | Count n => Returned (PInt n)
  end.

(** A reply of the Ollama chat endpoint, also the shape of each streamed
    chunk. *)
Record ChatResponse := mkResponse {
  message_content : string;
  done : bool;
  prompt_eval_count : Counter;
  eval_count : Counter
}.

(** What iterating a streamed reply does: it hands over [chunks] in order
    and then either stops ([None]) or raises. *)
Record ChunkStream := mkStream {
  chunks : list ChatResponse;
  ending : option Exn
}.

(** The behaviour of the services behind the client libraries.
    - [completions_create] answers with the [content] of each choice
      ([None] when it is null);
    - [messages_create] with the [text] of each content block;
    - [generate] with the value under the key [response], if any. *)
Record Remote := mkRemote {
  completions_create : ClientHandle -> CompletionRequest -> Outcome (list (option string));
  messages_create : ClientHandle -> CompletionRequest -> Outcome (list string);
  Image_open : list byte -> Outcome PILImage;
  generate_content : ClientHandle -> Obj -> PILImage -> Outcome string;
  generate : ClientHandle -> GenerateRequest -> Outcome (option string);
  chat_call : ClientHandle -> ChatRequest -> Outcome ChatResponse;
  chat_stream : ClientHandle -> ChatRequest -> Outcome ChunkStream
}.

(** What a describe or chat operation returns: the hosted variants return
    a bare text, [OllamaCV] a pair of a text and a token count. *)
Inductive Ret :=
| RText (text : string)
| RPair (text : string) (usage : Z).

(** ** class Base *)

Module Base.

(** [Base.image2base64]: the encoded payload, and the argument as the call
    leaves it. *)
Definition image2base64 (binary : ImageArg) : Outcome string * ImageArg :=
  match binary with
  | AsBytesIO b =>
      let '(img_data, b') := read (seek b 0) in
      (Returned (Base64.b64encode img_data), AsBytesIO b')
  | AsBytes img_data => (Returned (Base64.b64encode img_data), binary)
  | _ => (Raised (mkExn ValueError "binary must be BytesIO or bytes"), binary)
  end.

(** [Base.vision_llm_prompt]: the name [vision_llm_describe_prompt] is
    returned as it is bound, without being called. *)
Definition vision_llm_prompt (env : ModuleEnv) (self : Instance) (image : ImageArg) : Obj :=
  if String.eqb (str_lower env (lang self)) "chinese"
  then vision_llm_describe_prompt env
  else OStr "Please describe this image in detail.".

Definition prompt (env : ModuleEnv) (self : Instance) (image : ImageArg) : Obj :=
  vision_llm_prompt env self image.

End Base.

(** [prompt or self.prompt(image)] *)
Definition prompt_or (env : ModuleEnv) (self : Instance) (prompt : option string)
    (image : ImageArg) : Obj :=
  match prompt with
  | Some p => if truthy p then OStr p else Base.prompt env self image
  | None => Base.prompt env self image
  end.

(** [l[0]] on a list *)
Definition first {A} (l : list A) : Outcome A :=
  match l with
  | x :: _ => Returned x
  | [] => Raised (mkExn IndexError "list index out of range")
  end.

(** [content.strip()] where [content] may be [None] *)
Definition strip_opt (content : option string) : Outcome string :=
  match content with
  | Some s => Returned (strip s)
  | None => Raised (mkExn AttributeError "'NoneType' object has no attribute 'strip'")
  end.

(** The sentinel text returned by the [except] branch of the hosted variants. *)
Definition error_text (e : Exn) : Outcome Ret :=
  Returned (RText (ERROR_MARK +:+ str e)).

(** ** The hosted variants: GptV4, QWenCV, Zhipu4V, GeminiCV, AnthropicCV *)

Module Hosted.

(** The message list built by [GptV4], [QWenCV] and [Zhipu4V]. *)
Definition image_url_messages (text : Obj) (base64_image : string) : list Message :=
  [ mkMessage "user"
      [ TextPart text;
        ImageUrlPart ("data:image/jpeg;base64," +:+ base64_image) ] ].

(** The message list built by [AnthropicCV]. *)
Definition image_source_messages (text : Obj) (base64_image : string) : list Message :=
  [ mkMessage "user"
      [ TextPart text;
        ImageSourcePart "image/jpeg" base64_image ] ].

(** Body of the [try] block of [GptV4], [QWenCV] and [Zhipu4V]
    [.describe_with_prompt]. *)
Definition openai_style_body (net : Remote) (env : ModuleEnv) (self : Instance)
    (image : ImageArg) (prompt : option string) : Outcome Ret * ImageArg :=
  let '(encoded, image') := Base.image2base64 image in
  (base64_image ← encoded;
   response ← completions_create net (client self)
     (mkCompletion (model_name self)
        (image_url_messages (prompt_or env self prompt image') base64_image) 1000);
   choice ← first response;
   text ← strip_opt choice;
   Returned (RText text),
   image').

(** Body of the [try] block of [AnthropicCV.describe_with_prompt]. *)
Definition anthropic_body (net : Remote) (env : ModuleEnv) (self : Instance)
    (image : ImageArg) (prompt : option string) : Outcome Ret * ImageArg :=
  let '(encoded, image') := Base.image2base64 image in
  (base64_image ← encoded;
   message ← messages_create net (client self)
     (mkCompletion (model_name self)
        (image_source_messages (prompt_or env self prompt image') base64_image) 1000);
   block ← first message;
   Returned (RText (strip block)),
   image').

(** Body of the [try] block of [GeminiCV.describe_with_prompt]: the bytes
    are read as in [image2base64] but handed to PIL, not encoded. *)
Definition gemini_body (net : Remote) (env : ModuleEnv) (self : Instance)
    (image : ImageArg) (prompt : option string) : Outcome Ret * ImageArg :=
  let '(read_bytes, image') :=
    match image with
    | AsBytesIO b =>
        let '(img_data, b') := read (seek b 0) in (Returned img_data, AsBytesIO b')
    | AsBytes img_data => (Returned img_data, image)
    | _ => (Raised (mkExn ValueError "image must be BytesIO or bytes"), image)
    end in
  (img_data ← read_bytes;
   pil_image ← Image_open net img_data;
   text ← generate_content net (client self) (prompt_or env self prompt image') pil_image;
   Returned (RText (strip text)),
   image').

(** The three shapes of [describe_with_prompt] among the hosted classes:
    in each the whole body is inside [try], and the handler returns the
    sentinel text. *)
Definition guarded (body : Outcome Ret * ImageArg) : Outcome Ret * ImageArg :=
  (try_except (fst body) error_text, snd body).

Definition openai_style_describe_with_prompt net env self image prompt :=
  guarded (openai_style_body net env self image prompt).

Definition GeminiCV_describe_with_prompt net env self image prompt :=
  guarded (gemini_body net env self image prompt).

Definition AnthropicCV_describe_with_prompt net env self image prompt :=
  guarded (anthropic_body net env self image prompt).

End Hosted.

(** Events of a streaming chat. *)
Inductive StreamEvent :=
| EvText (text : string)
| EvInt (n : Z).

(** A generator run to exhaustion: the events yielded, the exception that
    escaped it (if any), and the conversation as it leaves it. *)
Record Run := mkRun {
  events : list StreamEvent;
  escaped : option Exn;
  history_after : list Turn
}.

(** The loop over the chunks of a streamed reply, once it is left: the
    events yielded, the buffer [ans], and the exception that ended the loop
    early, if one did. *)
Record Loop := mkLoop {
  yielded : list StreamEvent;
  buffer_at_exit : string;
  failure : option Exn
}.

(** ** class OllamaCV *)

Module Ollama.

(** The pair returned by the [except] branches of [OllamaCV]. *)
Definition error_pair (e : Exn) : Outcome Ret :=
  Returned (RPair (ERROR_MARK +:+ str e) 0).

(** [prompt[0]["content"][1]["text"]] *)
Definition message_text (prompt : Obj) : Outcome Obj :=
  p0 ← getitem_int prompt 0;
  p1 ← getitem_str p0 "content";
  p2 ← getitem_int p1 1;
  getitem_str p2 "text".

(** [response["response"]] *)
Definition response_field (response : option string) : Outcome string :=
  match response with
  | Some s => Returned s
  | None => Raised (mkExn KeyError "'response'")
  end.

(** The [try] block shared by [describe] and [describe_with_prompt]. *)
Definition generate_body (net : Remote) (self : Instance) (prompt : Obj)
    (image : ImageArg) : Outcome Ret :=
  text ← message_text prompt;
  response ← generate net (client self) (mkGenerate (model_name self) text [image]);
  ans ← response_field response;
  Returned (RPair (strip ans) 128).

(** [OllamaCV.describe] *)
Definition describe (net : Remote) (env : ModuleEnv) (self : Instance)
    (image : ImageArg) : Outcome Ret :=
  let prompt := Base.prompt env self (AsStr "") in
  try_except (generate_body net self prompt image) error_pair.

(** [OllamaCV.describe_with_prompt].  With a non-empty [prompt] the
    two-parameter method [vision_llm_prompt] is called with three
    arguments, before the [try] block is entered. *)
Definition describe_with_prompt (net : Remote) (env : ModuleEnv) (self : Instance)
    (image : ImageArg) (prompt : option string) : Outcome Ret :=
  vision_prompt ←
    (if truthy_opt prompt
     then Raised (mkExn TypeError
            "Base.vision_llm_prompt() takes 2 positional arguments but 3 were given")
     else Returned (Base.vision_llm_prompt env self (AsStr "")));
  try_except (generate_body net self vision_prompt image) error_pair.

(** The rewriting of the last turn under [if system:]. *)
Definition with_content (t : Turn) (c : string) : Turn :=
  {| role := role t; content := c; images := images t |}.

Definition apply_system (system : option string) (history : list Turn)
    : Outcome (list Turn) :=
  match system with
  | Some s =>
      if truthy s then
        match last history with
        | Some t =>
            Returned (<[ Nat.pred (length history) :=
                         with_content t (s +:+ content t +:+ "user query: " +:+ content t) ]>
                        history)
        | None => Raised (mkExn IndexError "list index out of range")
        end
      else Returned history
  | None => Returned history
  end.

(** The loop [for his in history: if his["role"] == "user": his["images"] = [image]]. *)
Definition attach (image : ImageArg) (his : Turn) : Turn :=
  if String.eqb (role his) "user"
  then {| role := role his; content := content his; images := Some [image] |}
  else his.

Definition attach_images (image : ImageArg) (history : list Turn) : list Turn :=
  attach image <$> history.

(** [if src in gen_conf: options[dst] = gen_conf[src]] *)
Definition forward (src dst : string) (gen_conf options : gmap string Q)
    : gmap string Q :=
  match gen_conf !! src with
  | Some v => <[dst := v]> options
  | None => options
  end.

Definition build_options (gen_conf : gmap string Q) : gmap string Q :=
  forward "frequency_penalty" "frequency_penalty" gen_conf
    (forward "presence_penalty" "presence_penalty" gen_conf
       (forward "top_p" "top_k" gen_conf
          (forward "temperature" "temperature" gen_conf ∅))).

(** The request handed to [self.client.chat]. *)
Definition chat_request (self : Instance) (history : list Turn)
    (gen_conf : gmap string Q) (streaming : bool) : ChatRequest :=
  {| chat_model := model_name self;
     messages := history;
     stream := streaming;
     options := build_options gen_conf;
     keep_alive := -1 |}.

(** [response["eval_count"] + response.get("prompt_eval_count", 0)] *)
Definition chat_usage (response : ChatResponse) : Outcome Z :=
  generated ← counter_getitem "eval_count" (eval_count response);
  add generated (counter_get (prompt_eval_count response) 0).

(** What [chat] makes of the reply. *)
Definition chat_result (reply : Outcome ChatResponse) : Outcome Ret :=
  try_except
    (response ← reply;
     let ans := strip (message_content response) in
     usage ← chat_usage response;
     Returned (RPair ans usage))
    error_pair.

(** [OllamaCV.chat]: the result, and the conversation as the call leaves it. *)
Definition chat (net : Remote) (self : Instance) (system : option string)
    (history : list Turn) (gen_conf : gmap string Q) (image : ImageArg)
    : Outcome Ret * list Turn :=
  match apply_system system history with
  | Raised e => (Raised e, history)
  | Returned rewritten =>
      let history' := attach_images image rewritten in
      (chat_result (chat_call net (client self)
                      (chat_request self history' gen_conf false)),
       history')
  end.

(** [resp.get("prompt_eval_count", 0) + resp.get("eval_count", 0)] *)
Definition stream_usage (resp : ChatResponse) : Outcome Z :=
  add (counter_get (prompt_eval_count resp) 0) (counter_get (eval_count resp) 0).

(** The loop [for resp in response], started with buffer [ans].  A chunk
    marked done whose usage cannot be added ends the loop with the
    exception of the addition, before its text is taken. *)
Fixpoint consume (ans : string) (resps : list ChatResponse) : Loop :=
  match resps with
  | [] => mkLoop [] ans None
  | resp :: rest =>
      match (if done resp
             then usage ← stream_usage resp; Returned [EvInt usage]
             else Returned []) with
      | Raised e => mkLoop [] ans (Some e)
      | Returned counted =>
          let ans' := ans +:+ message_content resp in
          let later := consume ans' rest in
          mkLoop (counted ++ EvText ans' :: yielded later)
                 (buffer_at_exit later) (failure later)
      end
  end.

(** The [except] branch of [chat_streamly]: the event it yields. *)
Definition error_event (ans : string) (e : Exn) : StreamEvent :=
  EvText (ans +:+ nl +:+ ERROR_MARK +:+ str e).

(** The [try] statement of [chat_streamly]: the events it yields.  The
    iteration raises [ending] only if the loop reaches the end of the
    chunks. *)
Definition stream_events (reply : Outcome ChunkStream) : list StreamEvent :=
  match reply with
  | Raised e => [error_event "" e]
  | Returned response =>
      let loop := consume "" (chunks response) in
      let raised :=
        match failure loop with
        | Some e => Some e
        | None => ending response
        end in
      match raised with
      | Some e => yielded loop ++ [error_event (buffer_at_exit loop) e]
      | None => yielded loop
      end
  end.

(** [OllamaCV.chat_streamly] *)
Definition chat_streamly (net : Remote) (self : Instance) (system : option string)
    (history : list Turn) (gen_conf : gmap string Q) (image : ImageArg) : Run :=
  match apply_system system history with
  | Raised e => mkRun [] (Some e) history
  | Returned rewritten =>
      let history' := attach_images image rewritten in
      let reply := chat_stream net (client self)
                     (chat_request self history' gen_conf true) in
      mkRun (stream_events reply ++ [EvInt 0]) None history'
  end.

End Ollama.

(** ** Method resolution *)

(** The methods each class body defines. *)
Definition Base_defines : list string :=
  ["__init__"; "image2base64"; "prompt"; "vision_llm_prompt"].

Definition class_defines (c : BackendClass) : list string :=
  match c with
  | OllamaCV =>
      ["__init__"; "describe"; "describe_with_prompt"; "chat"; "chat_streamly"]
  | _ => ["__init__"; "describe_with_prompt"]
  end.

(** [hasattr(instance, name)] for a method name: the class, then [Base]. *)
Definition exposes (c : BackendClass) (name : string) : bool :=
  bool_decide (name ∈ class_defines c ++ Base_defines).

Definition no_attribute {A} (c : BackendClass) (name : string) : Outcome A :=
  Raised (mkExn AttributeError
            ("'" +:+ class_name c +:+ "' object has no attribute '" +:+ name +:+ "'")).

(** [instance.describe(image)] *)
Definition describe (net : Remote) (env : ModuleEnv) (self : Instance)
    (image : ImageArg) : Outcome Ret :=
  match cls self with
  | OllamaCV => Ollama.describe net env self image
  | c => no_attribute c "describe"
  end.

(** [instance.describe_with_prompt(image, prompt)] *)
Definition describe_with_prompt (net : Remote) (env : ModuleEnv) (self : Instance)
    (image : ImageArg) (prompt : option string) : Outcome Ret * ImageArg :=
  match cls self with
  | OllamaCV => (Ollama.describe_with_prompt net env self image prompt, image)
  | GeminiCV => Hosted.GeminiCV_describe_with_prompt net env self image prompt
  | AnthropicCV => Hosted.AnthropicCV_describe_with_prompt net env self image prompt
  | GptV4 | QWenCV | Zhipu4V =>
      Hosted.openai_style_describe_with_prompt net env self image prompt
  end.

(** [instance.chat(system, history, gen_conf, image)] *)
Definition chat (net : Remote) (self : Instance) (system : option string)
    (history : list Turn) (gen_conf : gmap string Q) (image : ImageArg)
    : Outcome Ret * list Turn :=
  match cls self with
  | OllamaCV => Ollama.chat net self system history gen_conf image
  | c => (no_attribute c "chat", history)
  end.

(** [instance.chat_streamly(system, history, gen_conf, image)], iterated to
    the end. *)
Definition chat_streamly (net : Remote) (self : Instance) (system : option string)
    (history : list Turn) (gen_conf : gmap string Q) (image : ImageArg)
    : Run :=
  match cls self with
  | OllamaCV => Ollama.chat_streamly net self system history gen_conf image
  | c => mkRun []
           (Some (mkExn AttributeError
                    ("'" +:+ class_name c
                     +:+ "' object has no attribute 'chat_streamly'")))
           history
  end.

(** ** class VisionModelFactory *)

Module VisionModelFactory.

Definition _PROVIDERS : list (string * BackendClass) :=
  [ ("openai", GptV4); ("qwen", QWenCV); ("zhipu", Zhipu4V);
    ("ollama", OllamaCV); ("gemini", GeminiCV); ("anthropic", AnthropicCV) ].

(** [list(_PROVIDERS.keys())], in insertion order. *)
Definition provider_keys : list string := _PROVIDERS.*1.

(** [_PROVIDERS[provider]], [None] when [provider not in _PROVIDERS]. *)
Definition provider_class (provider : string) : option BackendClass :=
  (list_to_map _PROVIDERS : gmap string BackendClass) !! provider.

(** The default of the [model_name] parameter in each constructor's
    signature; [OllamaCV.__init__] declares none. *)
Definition signature_default (c : BackendClass) : option string :=
  match c with
  | GptV4 => Some "gpt-4-vision-preview"
  | QWenCV => Some "qwen-vl-max"
  | Zhipu4V => Some "glm-4v"
  | OllamaCV => None
  | GeminiCV => Some "gemini-pro-vision"
  | AnthropicCV => Some "claude-3-sonnet-20240229"
  end.

(** The call of an SDK constructor that inspects its arguments. *)
Definition new_client (env : ModuleEnv) (handle : ClientHandle) : Outcome ClientHandle :=
  match client_init env handle with
  | Some e => Raised e
  | None => Returned handle
  end.

(** [model_class(api_key, model_name, **kwargs)]: the six [__init__].
    [ollama.Client] and [genai.GenerativeModel] record their arguments. *)
Definition construct (env : ModuleEnv) (model_class : BackendClass)
    (api_key model_name : string) (kwargs : gmap string string) : Outcome Instance :=
  let lang := dict_get kwargs "lang" "Chinese" in
  match model_class with
  | GptV4 =>
      client ← new_client env (OpenAI api_key None);
      Returned (mkInstance GptV4 (Some api_key) model_name lang client)
  | QWenCV =>
      client ← new_client env
        (OpenAI api_key (Some "https://dashscope.aliyuncs.com/compatible-mode/v1"));
      Returned (mkInstance QWenCV (Some api_key) model_name lang client)
  | Zhipu4V =>
      client ← new_client env (ZhipuAI api_key);
      Returned (mkInstance Zhipu4V (Some api_key) model_name lang client)
  | OllamaCV =>
      if OLLAMA_AVAILABLE env
      then Returned (mkInstance OllamaCV None model_name lang
                       (OllamaClient (dict_get kwargs "base_url" "http://localhost:11434")))
      else Raised (mkExn ImportError "Ollama客户端未安装，请运行: pip install ollama")
  | GeminiCV =>
      if genai_importable env
      then Returned (mkInstance GeminiCV (Some api_key) model_name lang
                       (GenerativeModel api_key model_name))
      else Raised (mkExn ImportError "No module named 'google.generativeai'")
  | AnthropicCV =>
      if anthropic_importable env
      then client ← new_client env (Anthropic api_key);
           Returned (mkInstance AnthropicCV (Some api_key) model_name lang client)
      else Raised (mkExn ImportError "No module named 'anthropic'")
  end.

(** The [if not model_name:] chain of provider defaults. *)
Definition default_model_name (provider model_name : string) : string :=
  if truthy model_name then model_name
  else if String.eqb provider "openai" then "gpt-4-vision-preview"
  else if String.eqb provider "qwen" then "qwen-vl-max"
  else if String.eqb provider "zhipu" then "glm-4v"
  else if String.eqb provider "gemini" then "gemini-pro-vision"
  else if String.eqb provider "anthropic" then "claude-3-sonnet-20240229"
  else model_name.

(** [VisionModelFactory.create_model] *)
Definition create_model (env : ModuleEnv) (config : gmap string string)
    : Outcome Instance :=
  let provider := str_lower env (dict_get config "provider" "openai") in
  let model_name := dict_get config "model_name" "" in
  let api_key := dict_get config "api_key" "" in
  let lang := dict_get config "lang" "Chinese" in
  let base_url := dict_get config "base_url" "" in
  match provider_class provider with
  | None => Raised (mkExn ValueError ("不支持的提供商: " +:+ provider))
  | Some model_class =>
      let model_name := default_model_name provider model_name in
      let kwargs : gmap string string := {[ "lang" := lang ]} in
      let kwargs := if truthy base_url then <["base_url" := base_url]> kwargs else kwargs in
      construct env model_class api_key model_name kwargs
  end.

(** The process environment and the file system, as the factory sees them:
    [getenv] is [os.getenv]; [load_vision_config path] opens and parses the
    file at [path] and takes [config.get("vision_model", {})]. *)
Record Host := mkHost {
  getenv : string -> option string;
  load_vision_config : string -> Outcome (gmap string string)
}.

(** [VisionModelFactory.create_from_env] *)
Definition create_from_env (env : ModuleEnv) (host : Host) : Outcome Instance :=
  let var name dflt := default dflt (getenv host name) in
  create_model env
    (<["provider" := var "DEEPDOC_VISION_PROVIDER" "openai"]>
     (<["model_name" := var "DEEPDOC_VISION_MODEL" ""]>
      (<["api_key" := var "DEEPDOC_VISION_API_KEY" ""]>
       (<["lang" := var "DEEPDOC_VISION_LANG" "Chinese"]>
        (<["base_url" := var "DEEPDOC_VISION_BASE_URL" ""]> ∅))))).

(** [VisionModelFactory.create_from_config_file] *)
Definition create_from_config_file (env : ModuleEnv) (host : Host)
    (config_file : string) : Outcome Instance :=
  try_except
    (vision_config ← load_vision_config host config_file;
     create_model env vision_config)
    (fun e => Raised (mkExn ValueError
                ("Failed to load config from " +:+ config_file +:+ ": " +:+ str e))).

End VisionModelFactory.

(** The argument of [create_vision_model]. *)
Inductive ConfigArg :=
| NoConfig
| ConfigStr (s : string)
| ConfigDict (d : gmap string string)
| ConfigOther (type_repr : string).

(** [create_vision_model] *)
Definition create_vision_model (env : ModuleEnv) (host : VisionModelFactory.Host)
    (config : ConfigArg) : Outcome Instance :=
  match config with
  | NoConfig => VisionModelFactory.create_from_env env host
  | ConfigStr s =>
      if bool_decide (str_lower env s ∈ VisionModelFactory.provider_keys)
      then VisionModelFactory.create_model env {[ "provider" := str_lower env s ]}
      else if (endswith s ".yaml" || endswith s ".yml" || endswith s ".json")%bool
      then VisionModelFactory.create_from_config_file env host s
      else
        try_except (VisionModelFactory.create_from_config_file env host s)
          (fun _ => Raised (mkExn ValueError
             ("无效的配置: " +:+ s +:+ "。支持的提供商: "
              +:+ repr_list VisionModelFactory.provider_keys)))
  | ConfigDict d => VisionModelFactory.create_model env d
  | ConfigOther type_repr =>
      Raised (mkExn ValueError ("不支持的配置类型: " +:+ type_repr))
  end.

(** ** Test doubles and sample values *)

Module Sample.

(** An interpreter that is given ASCII text only. *)
Definition ascii_interpreter (imports : PromptsImport) (ollama genai anthropic : bool)
    (init : ClientHandle -> option Exn) : ModuleEnv.
Proof.
  refine (mkEnv imports ollama genai anthropic init ascii_lower _ (fun _ _ => eq_refl)).
  intros s. induction s as [|c r IH]; [reflexivity|].
  cbn [ascii_lower]. rewrite IH. f_equal.
  destruct c as [[] [] [] [] [] [] [] []]; reflexivity.
Defined.

(** Every library is installed and every client constructor accepts its
    arguments. *)
Definition installed : ModuleEnv :=
  ascii_interpreter ImportedFunction true true true (fun _ => None).

(** The same, with SDK constructors that refuse an empty key. *)
Definition key_required : Exn :=
  mkExn BackendError
    ("The api_key client option must be set either by passing api_key to the "
     +:+ "client or by setting the OPENAI_API_KEY environment variable").

Definition keyed : ModuleEnv :=
  ascii_interpreter ImportedFunction true true true
    (fun handle =>
       match handle with
       | OpenAI "" _ | ZhipuAI "" | Anthropic "" => Some key_required
       | _ => None
       end).

Definition refused : Exn := mkExn BackendError "Connection refused".

(** A service that refuses every call; decoding an image is local and works. *)
Definition unreachable : Remote :=
  {| completions_create := fun _ _ => Raised refused;
     messages_create := fun _ _ => Raised refused;
     Image_open := fun data => Returned (mkPIL data);
     generate_content := fun _ _ _ => Raised refused;
     generate := fun _ _ => Raised refused;
     chat_call := fun _ _ => Raised refused;
     chat_stream := fun _ _ => Raised refused |}.

(** A spy: the chat endpoint answers with the content of the last message
    it was sent. *)
Definition spy_reply (req : ChatRequest) : ChatResponse :=
  mkResponse (default "" (content <$> last (messages req))) true Missing (Count 0).

Definition spy : Remote :=
  {| completions_create := fun _ _ => Raised refused;
     messages_create := fun _ _ => Raised refused;
     Image_open := fun _ => Raised refused;
     generate_content := fun _ _ _ => Raised refused;
     generate := fun _ _ => Raised refused;
     chat_call := fun _ req => Returned (spy_reply req);
     chat_stream := fun _ req => Returned (mkStream [spy_reply req] None) |}.

(** A service whose streamed chat reply is fixed in advance. *)
Definition scripted (reply : ChunkStream) : Remote :=
  {| completions_create := fun _ _ => Raised refused;
     messages_create := fun _ _ => Raised refused;
     Image_open := fun _ => Raised refused;
     generate_content := fun _ _ _ => Raised refused;
     generate := fun _ _ => Raised refused;
     chat_call := fun _ _ => Raised refused;
     chat_stream := fun _ _ => Returned reply |}.

Definition piece (text : string) : ChatResponse := mkResponse text false Missing Missing.

Definition hello_stream : ChunkStream :=
  mkStream [piece "Hel"; piece "lo"; mkResponse "" true (Count 3) (Count 2)] None.

(** The same chunks as the response objects of the ollama client hand them
    over when the server leaves out [prompt_eval_count]. *)
Definition null_count_stream : ChunkStream :=
  mkStream [piece "Hel"; piece "lo"; mkResponse "" true Null (Count 2)] None.

Definition broken_stream : ChunkStream := mkStream [piece "Hel"] (Some refused).

Definition ollama : Instance :=
  mkInstance OllamaCV None "llava" "Chinese" (OllamaClient "http://localhost:11434").

Definition gpt : Instance :=
  mkInstance GptV4 (Some "sk-test") "gpt-4-vision-preview" "Chinese"
    (OpenAI "sk-test" None).

Definition qwen : Instance :=
  mkInstance QWenCV (Some "sk-test") "qwen-vl-max" "Chinese"
    (OpenAI "sk-test" (Some "https://dashscope.aliyuncs.com/compatible-mode/v1")).

Definition jpeg : list byte := [xff; xd8; xff; xe0; x00; x10]%byte.

(** A configuration naming a provider that is not registered. *)
Definition misspelt : gmap string string := {[ "provider" := "Invalid" ]}.

Definition nowhere : VisionModelFactory.Host :=
  VisionModelFactory.mkHost (fun _ => None) (fun _ => Raised refused).

Definition user_turn (text : string) : Turn := mkTurn "user" text None.

Definition assistant_turn (text : string) : Turn := mkTurn "assistant" text None.

End Sample.

(** ** What the statements below speak about *)

(** The text received up to and including the first [k] chunks. *)
Definition text_upto (resps : list ChatResponse) (k : nat) : string :=
  join "" (message_content <$> take k resps).

(** The number a counter stands for: a missing counter counts as 0, and
    [None] is no number. *)
Definition reported (c : Counter) : option Z :=
  match c with
  | Missing => Some 0
  | Null => None
  | Count n => Some n
  end.

(** The usage figure of a chunk, when both its counters stand for numbers. *)
Definition usage_of (resp : ChatResponse) : option Z :=
  prompt ← reported (prompt_eval_count resp);
  generated ← reported (eval_count resp);
  Some (prompt + generated).

(** A chunk that the loop gets past: it is not marked done, or its usage
    is a number. *)
Definition countable (resp : ChatResponse) : Prop :=
  done resp = true -> usage_of resp <> None.

(** Each text extends the one before it, the first one extends [start]. *)
Fixpoint growing (start : string) (texts : list string) : Prop :=
  match texts with
  | [] => True
  | text :: rest => (exists more, text = start +:+ more) /\ growing text rest
  end.

(** The client that the constructor of a class asks its SDK for, when that
    SDK inspects the key. *)
Definition sdk_client (c : BackendClass) (api_key : string) : option ClientHandle :=
  match c with
  | GptV4 => Some (OpenAI api_key None)
  | QWenCV =>
      Some (OpenAI api_key (Some "https://dashscope.aliyuncs.com/compatible-mode/v1"))
  | Zhipu4V => Some (ZhipuAI api_key)
  | AnthropicCV => Some (Anthropic api_key)
  | OllamaCV | GeminiCV => None
  end.

(** What that SDK raises for the key, if anything. *)
Definition refusal (env : ModuleEnv) (c : BackendClass) (api_key : string) : option Exn :=
  handle ← sdk_client c api_key; client_init env handle.

(** The last turn of a conversation that has the role [user]. *)
Definition last_user_turn (history : list Turn) : option Turn :=
  last (filter (fun t => role t = "user") history).

(** An error message enumerates the registry when it mentions every key. *)
Definition enumerates_registry (msg : string) : bool :=
  forallb (fun k => contains k msg) VisionModelFactory.provider_keys.

(** The bytes an image argument holds, when it is a buffer or raw bytes. *)
Definition image_bytes (image : ImageArg) : option (list byte) :=
  match image with
  | AsBytesIO b => Some (buffer b)
  | AsBytes data => Some data
  | _ => None
  end.

(** Every call to the service behind the client [c] raises [e]. *)
Definition fails_with (net : Remote) (c : ClientHandle) (e : Exn) : Prop :=
  (forall req, completions_create net c req = Raised e)
  /\ (forall req, messages_create net c req = Raised e)
  /\ (forall text img, generate_content net c text img = Raised e)
  /\ (forall req, generate net c req = Raised e)
  /\ (forall req, chat_call net c req = Raised e)
  /\ (forall req, chat_stream net c req = Raised e).

(** A result has the pair shape. *)
Definition is_pair (r : Ret) : Prop := exists text usage, r = RPair text usage.

(** A computation whose results, if any, are bare texts; and one whose
    results are pairs. *)
Definition text_only (m : Outcome Ret) : Prop :=
  forall r, m = Returned r -> exists text, r = RText text.

Definition pair_only (m : Outcome Ret) : Prop :=
  forall r, m = Returned r -> is_pair r.

(** The five classes that talk to a hosted service. *)
Definition hosted (c : BackendClass) : Prop := c <> OllamaCV.

(** ** The helper modules: nltk_manager.py, prompts.py, parser/utils.py *)

(** The exceptions these modules raise or let through. *)
Inductive HelperError :=
| NameError (msg : string)
| FileNotFoundError (msg : string).

(** A call that returns or raises one of them. *)
Inductive Attempt (A : Type) :=
| Done (a : A)
| Failed (e : HelperError).
Arguments Done {A} a.
Arguments Failed {A} e.

Module NltkManager.

(** The NLTK installation, in a state of type [W]: [find w path] tells
    whether [nltk.data.find(path)] returns (it raises [LookupError]
    otherwise); [download w name] is [nltk.download(name, quiet=True)],
    its result or the exception it raises, with the installation it
    leaves. *)
Record Nltk (W : Type) := mkNltk {
  find : W -> string -> bool;
  download : W -> string -> Outcome bool * W
}.
Arguments find {W} _ _ _.
Arguments download {W} _ _ _.

(** The module's state: the table kept by [lru_cache] for
    [ensure_nltk_resource], and [_downloaded_resources]. *)
Record State := mkState {
  cache : gmap (string * string) bool;
  _downloaded_resources : gset string
}.

Definition initial : State := mkState ∅ ∅.

(** The body of [ensure_nltk_resource], run by one thread: the fast path,
    the second look under the lock, the give-up test, the download. *)
Definition ensure_body {W} (nltk : Nltk W) (resource_path download_name : string)
    (downloaded : gset string) (w : W) : bool * gset string * W :=
  if find nltk w resource_path then (true, downloaded, w)
  else if find nltk w resource_path then (true, downloaded, w)
  else if bool_decide (download_name ∈ downloaded) then (false, downloaded, w)
  else
    match download nltk w download_name with
    | (Returned success, w') => (success, {[ download_name ]} ∪ downloaded, w')
    | (Raised _, w') => (false, {[ download_name ]} ∪ downloaded, w')
    end.

(** [ensure_nltk_resource], with its [lru_cache(maxsize=None)]. *)
Definition ensure_nltk_resource {W} (nltk : Nltk W)
    (resource_path download_name : string) (st : State) (w : W)
    : bool * State * W :=
  match cache st !! (resource_path, download_name) with
  | Some answer => (answer, st, w)
  | None =>
      let '(answer, downloaded, w') :=
        ensure_body nltk resource_path download_name (_downloaded_resources st) w in
      (answer,
       mkState (<[ (resource_path, download_name) := answer ]> (cache st)) downloaded,
       w')
  end.

(** The loop of the wrappers built by [require_nltk_data]: the names that
    could not be ensured, in the order of [resources]. *)
Fixpoint collect_missing {W} (nltk : Nltk W) (resources : list (string * string))
    (st : State) (w : W) : list string * State * W :=
  match resources with
  | [] => ([], st, w)
  | (resource_path, download_name) :: rest =>
      let '(ok, st1, w1) := ensure_nltk_resource nltk resource_path download_name st w in
      let '(missing, st2, w2) := collect_missing nltk rest st1 w1 in
      ((if ok then [] else [download_name]) ++ missing, st2, w2)
  end.


End NltkManager.

Module Prompts.

(** [os.path.join(a, b)] on POSIX paths. *)
Definition path_join (a b : string) : string :=
  if String.prefix "/" b then b
  else if (String.eqb a "" || endswith a "/")%bool then a +:+ b
  else a +:+ "/" +:+ b.

(** [load_prompt]: [files] maps the path of each regular file to the text
    that reading it yields; [loaded] is [_loaded_prompts].  Returns the
    outcome and [_loaded_prompts] as the call leaves it. *)
Definition load_prompt (PROMPT_DIR : string) (files : gmap string string)
    (name : string) (loaded : gmap string string)
    : Attempt string * gmap string string :=
  match loaded !! name with
  | Some content => (Done content, loaded)
  | None =>
      let path := path_join PROMPT_DIR (name +:+ ".md") in
      match files !! path with
      | None =>
          (Failed (FileNotFoundError
                     ("Prompt file '" +:+ name
                      +:+ ".md' not found in prompts/ directory at "
                      +:+ PROMPT_DIR +:+ ".")),
           loaded)
      | Some text =>
          let content := strip text in
          (Done content, <[ name := content ]> loaded)
      end
  end.

End Prompts.

Module ParserUtils.

(** What [get_text] relies on: [find_codec] of [depend/find_codec.py];
    [bytes.decode(encoding, errors="ignore")]; and reading a file opened
    with [encoding="utf-8"], which fails with [UnicodeDecodeError] ([None])
    on bytes that are not UTF-8. *)
Record Codecs := mkCodecs {
  find_codec : list byte -> string;
  decode_ignore : list byte -> string -> string;
  read_utf8 : list byte -> option string
}.

(** [not binary] for [binary] being [None] or a [bytes] value. *)
Definition falsy (binary : option (list byte)) : bool :=
  match binary with
  | None | Some [] => true
  | Some (_ :: _) => false
  end.

(** [get_text]: [files] maps each readable path to its bytes. *)
Definition get_text (codecs : Codecs) (files : gmap string (list byte))
    (fnm : string) (binary : option (list byte)) : Attempt string :=
  match binary with
  | Some (b :: rest) =>
      let encoding := find_codec codecs (b :: rest) in
      Done (decode_ignore codecs (b :: rest) encoding)
  | _ =>
      match files !! fnm with
      | None =>
          Failed (FileNotFoundError
                    ("[Errno 2] No such file or directory: '" +:+ fnm +:+ "'"))
      | Some binary_content =>
          match read_utf8 codecs binary_content with
          | Some txt => Done txt
          | None =>
              let encoding := find_codec codecs binary_content in
              Done (decode_ignore codecs binary_content encoding)
          end
      end
  end.

End ParserUtils.

(** ** More test doubles *)

Module MoreSamples.

(** A completion service that answers every request with [choices]. *)
Definition answering (choices : list (option string)) : Remote :=
  {| completions_create := fun _ _ => Returned choices;
     messages_create := fun _ _ => Raised Sample.refused;
     Image_open := fun data => Returned (mkPIL data);
     generate_content := fun _ _ _ => Raised Sample.refused;
     generate := fun _ _ => Raised Sample.refused;
     chat_call := fun _ _ => Raised Sample.refused;
     chat_stream := fun _ _ => Raised Sample.refused |}.

(** An NLTK installation that has nothing and cannot download, and one
    that has everything. *)
Definition offline : NltkManager.Nltk unit :=
  {| NltkManager.find := fun _ _ => false;
     NltkManager.download := fun w _ => (Raised Sample.refused, w) |}.


(** The state of [nltk_manager] after one failed attempt for [punkt]. *)
Definition gave_up : NltkManager.State :=
  NltkManager.mkState {[ ("tokenizers/punkt", "punkt") := false ]} {[ "punkt" ]}.

(** A configuration for the Ollama provider. *)
Definition local_llava : gmap string string :=
  {[ "provider" := "Ollama"; "model_name" := "llava" ]}.

(** A configuration for a hosted provider that carries no API key. *)
Definition keyless_qwen : gmap string string :=
  {[ "provider" := "qwen"; "model_name" := "qwen-vl-max" ]}.

(** A process environment that sets the API key and nothing else. *)
Definition with_key : VisionModelFactory.Host :=
  VisionModelFactory.mkHost
    (fun name => if String.eqb name "DEEPDOC_VISION_API_KEY" then Some "sk-test" else None)
    (fun _ => Raised Sample.refused).

End MoreSamples.

(** ** More vocabulary *)

(** The texts, and the integers, among the events of a stream, in order. *)
Definition texts_of (evs : list StreamEvent) : list string :=
  omap (fun ev => match ev with EvText t => Some t | EvInt _ => None end) evs.

Definition ints_of (evs : list StreamEvent) : list Z :=
  omap (fun ev => match ev with EvInt n => Some n | EvText _ => None end) evs.

(** An outcome that is a returned pair. *)
Definition is_pair_outcome (m : Outcome Ret) : Prop :=
  exists text usage, m = Returned (RPair text usage).

(** Whether the client library of a class can be imported. *)
Definition importable (env : ModuleEnv) (c : BackendClass) : bool :=
  match c with
  | OllamaCV => OLLAMA_AVAILABLE env
  | GeminiCV => genai_importable env
  | AnthropicCV => anthropic_importable env
  | GptV4 | QWenCV | Zhipu4V => true
  end.

(** The state of [nltk_manager] is coherent when every negative answer kept
    by the cache is for a name recorded in [_downloaded_resources]. *)
Definition coherent (st : NltkManager.State) : Prop :=
  forall resource_path download_name,
    NltkManager.cache st !! (resource_path, download_name) = Some false ->
    download_name ∈ NltkManager._downloaded_resources st.

(** The same installation, keeping a log of the names handed to
    [nltk.download]. *)
Definition recording {W} (nltk : NltkManager.Nltk W)
    : NltkManager.Nltk (W * list string) :=
  {| NltkManager.find := fun wl path => NltkManager.find nltk (fst wl) path;
     NltkManager.download := fun wl name =>
       let '(result, w') := NltkManager.download nltk (fst wl) name in
       (result, (w', snd wl ++ [name])) |}.

(** A log of downloads agrees with the module's state: no name twice, and
    every name in [_downloaded_resources]. *)
Definition recorded (st : NltkManager.State) (log : list string) : Prop :=
  NoDup log /\ forall name, name ∈ log -> name ∈ NltkManager._downloaded_resources st.

(** A byte of base64 text: a digit of the alphabet, or the padding sign. *)
Definition base64_char (c : ascii) : bool :=
  (contains (String c "") Base64.alphabet || Ascii.eqb c "=")%bool.

Fixpoint all_chars (p : ascii -> bool) (s : string) : bool :=
  match s with
  | EmptyString => true
  | String c r => (p c && all_chars p r)%bool
  end.

(** * Properties *)

(** ** The embedding on concrete inputs *)

Example b64encode_groups :
  Base64.b64encode ["M"; "a"; "n"]%byte = "TWFu"
  /\ Base64.b64encode ["M"; "a"]%byte = "TWE="
  /\ Base64.b64encode ["M"]%byte = "TQ=="
  /\ Base64.b64encode [xff; xfe; xfd]%byte = "//79".
Proof. repeat split. Qed.

Example read_from_the_middle :
  read (mkBytesIO ["M"; "a"; "n"]%byte 1)
    = (["a"; "n"]%byte, mkBytesIO ["M"; "a"; "n"]%byte 3).
Proof. reflexivity. Qed.

Example builtins_on_text :
  ascii_lower "OpenAI" = "openai"
  /\ is_ascii "OpenAI" = true
  /\ is_ascii "请" = false
  /\ strip ("  a b " +:+ nl) = "a b"
  /\ strip "　请 描述　" = "请 描述"
  /\ strip (utf8 [194; 160]%nat +:+ "a" +:+ utf8 [226; 128; 139]%nat)
     = "a" +:+ utf8 [226; 128; 139]%nat
  /\ add (PInt 3) (PInt 2) = Returned 5
  /\ add PNone (PInt 2)
     = Raised (mkExn TypeError
                 "unsupported operand type(s) for +: 'NoneType' and 'int'")
  /\ chars "a请b" = ["a"; "请"; "b"]
  /\ endswith "conf.yaml" ".yaml" = true
  /\ endswith "yaml" ".yaml" = false
  /\ contains "qwen" "['openai', 'qwen']" = true.
Proof. repeat split. Qed.

Example subscripting_a_text_prompt :
  Ollama.message_text (OStr "Please describe this image in detail.")
    = Raised (mkExn TypeError "string indices must be integers, not 'str'").
Proof. reflexivity. Qed.

Example unloadable_string_config :
  create_vision_model Sample.installed Sample.nowhere (ConfigStr "mistral")
    = Raised (mkExn ValueError
        ("无效的配置: mistral。支持的提供商: "
         +:+ "['openai', 'qwen', 'zhipu', 'ollama', 'gemini', 'anthropic']")).
Proof. reflexivity. Qed.

Example forwarded_options :
  Ollama.build_options {[ "temperature" := 0.5%Q; "top_p" := 1%Q; "seed" := 7%Q ]}
    = {[ "temperature" := 0.5%Q; "top_k" := 1%Q ]}.
Proof. apply map_eq; intros k. vm_compute. reflexivity. Qed.

Section Strings.

(** stdpp keeps [String.append] from unfolding under [simpl]; its two
    equations are stated once. *)
Lemma append_cons (x : ascii) (a b : string) : String x a +:+ b = String x (a +:+ b).
Proof. reflexivity. Qed.

Lemma append_nil_r (s : string) : s +:+ "" = s.
Proof. induction s as [|c s IH]; [reflexivity | now rewrite append_cons, IH]. Qed.

Lemma append_assoc (a b c : string) : (a +:+ b) +:+ c = a +:+ b +:+ c.
Proof. induction a as [|x a IH]; [reflexivity | now rewrite !append_cons, IH]. Qed.

Lemma join_cons (x : string) (l : list string) : join "" (x :: l) = x +:+ join "" l.
Proof. destruct l; simpl; [now rewrite append_nil_r | reflexivity]. Qed.

Lemma join_snoc (l : list string) (x : string) :
  join "" (l ++ [x]) = join "" l +:+ x.
Proof.
  induction l as [|y l IH]; [reflexivity|].
  change ((y :: l) ++ [x]) with (y :: (l ++ [x])).
  now rewrite !join_cons, IH, append_assoc.
Qed.

End Strings.

(** ** The streaming loop *)

Section Streaming.

Implicit Types (ans : string) (resps : list ChatResponse) (resp : ChatResponse).

(** The two counters of a chunk can be added exactly when both stand for
    numbers. *)
Lemma stream_usage_number resp n :
  usage_of resp = Some n -> Ollama.stream_usage resp = Returned n.
Proof.
  unfold usage_of, Ollama.stream_usage.
  destruct (prompt_eval_count resp), (eval_count resp); cbn;
    intros [= <-]; reflexivity.
Qed.

Lemma stream_usage_none resp :
  usage_of resp = None ->
  Ollama.stream_usage resp
    = Raised (mkExn TypeError
        ("unsupported operand type(s) for +: '"
         +:+ type_name (counter_get (prompt_eval_count resp) 0) +:+ "' and '"
         +:+ type_name (counter_get (eval_count resp) 0) +:+ "'")).
Proof.
  unfold usage_of, Ollama.stream_usage.
  destruct (prompt_eval_count resp), (eval_count resp); cbn;
    intros [=]; reflexivity.
Qed.

(** What the loop does with its next chunk. *)
Lemma consume_cons_open ans resp rest :
  done resp = false ->
  Ollama.consume ans (resp :: rest)
    = mkLoop (EvText (ans +:+ message_content resp)
                :: yielded (Ollama.consume (ans +:+ message_content resp) rest))
             (buffer_at_exit (Ollama.consume (ans +:+ message_content resp) rest))
             (failure (Ollama.consume (ans +:+ message_content resp) rest)).
Proof. intros Hopen. cbn [Ollama.consume]. now rewrite Hopen. Qed.

Lemma consume_cons_done ans resp rest n :
  done resp = true ->
  usage_of resp = Some n ->
  Ollama.consume ans (resp :: rest)
    = mkLoop (EvInt n :: EvText (ans +:+ message_content resp)
                :: yielded (Ollama.consume (ans +:+ message_content resp) rest))
             (buffer_at_exit (Ollama.consume (ans +:+ message_content resp) rest))
             (failure (Ollama.consume (ans +:+ message_content resp) rest)).
Proof.
  intros Hdone Husage. cbn [Ollama.consume].
  now rewrite Hdone, (stream_usage_number _ _ Husage).
Qed.

Lemma consume_cons_null ans resp rest :
  done resp = true ->
  usage_of resp = None ->
  Ollama.consume ans (resp :: rest)
    = mkLoop [] ans
        (Some (mkExn TypeError
           ("unsupported operand type(s) for +: '"
            +:+ type_name (counter_get (prompt_eval_count resp) 0) +:+ "' and '"
            +:+ type_name (counter_get (eval_count resp) 0) +:+ "'"))).
Proof.
  intros Hdone Husage. cbn [Ollama.consume].
  now rewrite Hdone, (stream_usage_none _ Husage).
Qed.

(** Two stretches of chunks are consumed one after the other, unless the
    loop ends in the first. *)
Lemma consume_app ans resps1 resps2 :
  Ollama.consume ans (resps1 ++ resps2) =
    match failure (Ollama.consume ans resps1) with
    | Some _ => Ollama.consume ans resps1
    | None =>
        mkLoop (yielded (Ollama.consume ans resps1)
                ++ yielded (Ollama.consume
                              (buffer_at_exit (Ollama.consume ans resps1)) resps2))
               (buffer_at_exit
                  (Ollama.consume (buffer_at_exit (Ollama.consume ans resps1)) resps2))
               (failure
                  (Ollama.consume (buffer_at_exit (Ollama.consume ans resps1)) resps2))
    end.
Proof.
  revert ans; induction resps1 as [|r resps1 IH]; intros ans.
  - cbn. now destruct (Ollama.consume ans resps2).
  - cbn [app Ollama.consume].
    destruct (if done r then _ else _) as [counted|e]; [|reflexivity].
    cbn [failure buffer_at_exit yielded]. rewrite IH.
    destruct (failure (Ollama.consume (ans +:+ message_content r) resps1))
      eqn:Hfail; cbn [failure buffer_at_exit yielded]; rewrite ?Hfail;
      [reflexivity|].
    now rewrite <- app_assoc.
Qed.

(** While no chunk is marked done, every chunk yields exactly one text
    event, carrying all the text received so far. *)
Lemma consume_streaming ans resps :
  Forall (fun r => done r = false) resps ->
  Ollama.consume ans resps =
    mkLoop ((fun k => EvText (ans +:+ text_upto resps (S k))) <$> seq 0 (length resps))
           (ans +:+ join "" (message_content <$> resps)) None.
Proof.
  intros Hopen; revert ans.
  induction Hopen as [|r resps Hr _ IH]; intros ans.
  - cbn. now rewrite append_nil_r.
  - rewrite (consume_cons_open _ _ _ Hr), IH. cbn [yielded buffer_at_exit failure].
    rewrite fmap_cons, join_cons, append_assoc. f_equal.
    cbn [length seq fmap list_fmap]. f_equal.
    rewrite <- seq_shift, <- list_fmap_compose.
    apply list_fmap_ext; intros _ k _. unfold compose, text_upto.
    change (take (S (S k)) (r :: resps)) with (r :: take (S k) resps).
    now rewrite fmap_cons, join_cons, append_assoc.
Qed.

Lemma texts_of_app evs1 evs2 : texts_of (evs1 ++ evs2) = texts_of evs1 ++ texts_of evs2.
Proof. apply omap_app. Qed.

Lemma ints_of_app evs1 evs2 : ints_of (evs1 ++ evs2) = ints_of evs1 ++ ints_of evs2.
Proof. apply omap_app. Qed.

(** As long as every chunk marked done reports numbers, the loop reaches
    the end of the chunks: every chunk yields one text event, and every
    chunk marked done one usage event before it. *)
Lemma consume_countable ans resps :
  Forall countable resps ->
  failure (Ollama.consume ans resps) = None
  /\ buffer_at_exit (Ollama.consume ans resps)
     = ans +:+ join "" (message_content <$> resps)
  /\ texts_of (yielded (Ollama.consume ans resps))
     = (fun k => ans +:+ text_upto resps (S k)) <$> seq 0 (length resps)
  /\ ints_of (yielded (Ollama.consume ans resps))
     = omap usage_of (filter (fun r => done r = true) resps).
Proof.
  intros Hall; revert ans.
  induction Hall as [|r resps Hr _ IH]; intros ans.
  - cbn. now rewrite append_nil_r.
  - destruct (IH (ans +:+ message_content r)) as (Hfail & Hbuf & Htexts & Hints).
    assert (Hshift :
      (fun k => ans +:+ text_upto (r :: resps) (S k)) <$> seq 0 (length (r :: resps))
      = (ans +:+ message_content r)
        :: ((fun k => (ans +:+ message_content r) +:+ text_upto resps (S k))
              <$> seq 0 (length resps))).
    { cbn [length seq]. rewrite fmap_cons. f_equal.
      rewrite <- seq_shift, <- list_fmap_compose.
      apply list_fmap_ext; intros _ k _. unfold compose, text_upto.
      change (take (S (S k)) (r :: resps)) with (r :: take (S k) resps).
      now rewrite fmap_cons, join_cons, append_assoc. }
    rewrite Hshift, fmap_cons, join_cons, <- append_assoc, filter_cons.
    destruct (done r) eqn:Hdone.
    + destruct (usage_of r) as [n|] eqn:Husage; [|now destruct (Hr Hdone)].
      rewrite (consume_cons_done _ _ _ _ Hdone Husage).
      cbn [failure buffer_at_exit yielded].
      rewrite decide_True by reflexivity. cbn [omap list_omap]. rewrite Husage.
      change (texts_of (EvInt n :: EvText ?t :: ?l)) with (t :: texts_of l).
      change (ints_of (EvInt n :: EvText ?t :: ?l)) with (n :: ints_of l).
      now rewrite Hfail, Hbuf, Htexts, Hints.
    + rewrite (consume_cons_open _ _ _ Hdone).
      cbn [failure buffer_at_exit yielded].
      rewrite decide_False by discriminate.
      change (texts_of (EvText ?t :: ?l)) with (t :: texts_of l).
      change (ints_of (EvText ?t :: ?l)) with (ints_of l).
      now rewrite Hfail, Hbuf, Htexts, Hints.
Qed.

Lemma growing_lookup start texts i earlier later :
  growing start texts ->
  texts !! i = Some earlier ->
  texts !! S i = Some later ->
  exists more, later = earlier +:+ more.
Proof.
  revert start i; induction texts as [|t texts IH]; intros start i Hgrow Hi HSi;
    [discriminate Hi|].
  destruct Hgrow as [_ Hrest]. destruct i as [|i].
  - injection Hi as ->. destruct texts as [|t' texts]; [discriminate HSi|].
    injection HSi as ->. exact (proj1 Hrest).
  - exact (IH _ _ Hrest Hi HSi).
Qed.

(** The texts that the loop yields grow from the buffer it starts with, and
    the buffer it leaves extends the last of them. *)
Lemma consume_growing ans resps suffix :
  growing ans (texts_of (yielded (Ollama.consume ans resps)))
  /\ growing ans (texts_of (yielded (Ollama.consume ans resps))
                  ++ [buffer_at_exit (Ollama.consume ans resps) +:+ suffix]).
Proof.
  revert ans; induction resps as [|r resps IH]; intros ans.
  - cbn. split; [exact I|]. split; [now exists suffix | exact I].
  - cbn [Ollama.consume].
    destruct (if done r then _ else _) as [counted|e] eqn:Hstep.
    + assert (Hcounted : texts_of counted = []).
      { destruct (done r); [|now injection Hstep as <-].
        destruct (Ollama.stream_usage r); [|discriminate Hstep].
        now injection Hstep as <-. }
      cbn [yielded buffer_at_exit]. rewrite texts_of_app, Hcounted. cbn [app].
      change (texts_of (EvText ?t :: ?l)) with (t :: texts_of l).
      destruct (IH (ans +:+ message_content r)) as [Hplain Hsuffixed].
      split; (split; [now exists (message_content r) | assumption]).
    + cbn. split; [exact I|]. split; [now exists suffix | exact I].
Qed.

End Streaming.

Section StreamingChat.

Variable net : Remote.
Variables (self : Instance) (system : option string) (history : list Turn).
Variables (gen_conf : gmap string Q) (image : ImageArg).

(** The request [chat_streamly] sends once the conversation was rewritten. *)
Local Abbreviation request rewritten :=
  (Ollama.chat_request self (Ollama.attach_images image rewritten) gen_conf true).

(** Once the preamble went through, the events are those of the [try]
    statement followed by the terminal [0], and nothing escapes. *)
Lemma chat_streamly_events rewritten :
  Ollama.apply_system system history = Returned rewritten ->
  Ollama.chat_streamly net self system history gen_conf image =
    mkRun (Ollama.stream_events (chat_stream net (client self) (request rewritten))
             ++ [EvInt 0])
          None (Ollama.attach_images image rewritten).
Proof. intros Hsys. unfold Ollama.chat_streamly. now rewrite Hsys. Qed.

(** The events of a stream whose chunks are all but the last not marked
    done, in terms of what the loop makes of the last chunk. *)
Lemma stream_events_done_last pre final :
  Forall (fun r => done r = false) pre ->
  Ollama.stream_events (Returned (mkStream (pre ++ [final]) None))
    = ((fun k => EvText (text_upto pre (S k))) <$> seq 0 (length pre))
      ++ match failure (Ollama.consume (join "" (message_content <$> pre)) [final]) with
         | Some e =>
             [Ollama.error_event
                (buffer_at_exit
                   (Ollama.consume (join "" (message_content <$> pre)) [final])) e]
         | None => yielded (Ollama.consume (join "" (message_content <$> pre)) [final])
         end.
Proof.
  intros Hopen. cbn [Ollama.stream_events chunks ending].
  rewrite consume_app, (consume_streaming "" pre Hopen).
  cbn [failure buffer_at_exit yielded].
  change ("" +:+ ?s) with s.
  destruct (Ollama.consume (join "" (message_content <$> pre)) [final])
    as [evs ans [e|]] eqn:Hlast; cbn [failure buffer_at_exit yielded].
  - cbn [Ollama.consume failure yielded buffer_at_exit] in Hlast.
    destruct (if done final then _ else _); [discriminate Hlast|].
    injection Hlast as <- <- <-. now rewrite app_nil_r.
  - reflexivity.
Qed.

(** X24. When the backend hands over finitely many chunks of which exactly
    the last is marked done, and the counters of that chunk are integers
    or missing keys, [OllamaCV.chat_streamly] yields: for each chunk before
    the last, in arrival order, one text event carrying all the text
    received so far; then the integer event [prompt_eval_count +
    eval_count] of the last chunk (a missing counter counting as 0); then
    one text event carrying the whole text, the last chunk's included;
    then the integer event 0, which ends the sequence.  No exception
    escapes. *)
Theorem chat_streamly_done_last rewritten pre final usage :
  Ollama.apply_system system history = Returned rewritten ->
  chat_stream net (client self) (request rewritten)
    = Returned (mkStream (pre ++ [final]) None) ->
  Forall (fun r => done r = false) pre ->
  done final = true ->
  usage_of final = Some usage ->
  events (Ollama.chat_streamly net self system history gen_conf image) =
    ((fun k => EvText (text_upto pre (S k))) <$> seq 0 (length pre))
    ++ [ EvInt usage;
         EvText (join "" (message_content <$> pre ++ [final]));
         EvInt 0 ]
  /\ escaped (Ollama.chat_streamly net self system history gen_conf image) = None.
Proof.
  intros Hsys Hreply Hopen Hdone Husage.
  rewrite (chat_streamly_events _ Hsys), Hreply. split; [|reflexivity].
  cbn [events]. rewrite (stream_events_done_last _ _ Hopen).
  rewrite (consume_cons_done _ _ _ _ Hdone Husage).
  cbn [failure yielded Ollama.consume]. rewrite <- app_assoc. f_equal.
  cbn [app]. rewrite fmap_app.
  change (message_content <$> [final]) with [message_content final].
  now rewrite join_snoc.
Qed.

(** C1. The backend hands over finitely many chunks of which exactly the
    last is marked done, and the last one answers [None] for one of its
    counters, as the response objects of the ollama client do for a
    counter the server left out.  Then [resp.get("prompt_eval_count", 0) + resp.get("eval_count",
    0)] raises [TypeError] inside the [try] block: no usage event is
    yielded and the text of the last chunk is never taken.  After the text
    events of the chunks before it come the text received so far with the
    error suffix, and the integer event 0. *)
Theorem chat_streamly_null_counter rewritten pre final :
  Ollama.apply_system system history = Returned rewritten ->
  chat_stream net (client self) (request rewritten)
    = Returned (mkStream (pre ++ [final]) None) ->
  Forall (fun r => done r = false) pre ->
  done final = true ->
  usage_of final = None ->
  events (Ollama.chat_streamly net self system history gen_conf image) =
    ((fun k => EvText (text_upto pre (S k))) <$> seq 0 (length pre))
    ++ [ EvText (join "" (message_content <$> pre) +:+ nl
                 +:+ "**ERROR**: unsupported operand type(s) for +: '"
                 +:+ type_name (counter_get (prompt_eval_count final) 0) +:+ "' and '"
                 +:+ type_name (counter_get (eval_count final) 0) +:+ "'");
         EvInt 0 ]
  /\ escaped (Ollama.chat_streamly net self system history gen_conf image) = None.
Proof.
  intros Hsys Hreply Hopen Hdone Hnull.
  rewrite (chat_streamly_events _ Hsys), Hreply. split; [|reflexivity].
  cbn [events]. rewrite (stream_events_done_last _ _ Hopen).
  rewrite (consume_cons_null _ _ _ Hdone Hnull).
  cbn [failure buffer_at_exit]. rewrite <- app_assoc. reflexivity.
Qed.

(** C2. When the iteration over the backend's chunks raises [e] after the
    chunks [received] were handed over (or the call that opens the stream
    raises, nothing being received), [OllamaCV.chat_streamly] lets no
    exception escape: after the events of the loop, it yields the buffer
    followed by a line feed, the error marker and the cause, and then the
    integer event 0.  The buffer is the text of the chunks received and the
    cause is [e], unless the loop itself failed on a chunk before the
    iteration could raise; that failure is then the cause. *)
Theorem chat_streamly_backend_raises rewritten received e :
  Ollama.apply_system system history = Returned rewritten ->
  chat_stream net (client self) (request rewritten)
    = Returned (mkStream received (Some e))
  \/ (chat_stream net (client self) (request rewritten) = Raised e
      /\ received = []) ->
  events (Ollama.chat_streamly net self system history gen_conf image) =
    yielded (Ollama.consume "" received)
    ++ [ EvText (buffer_at_exit (Ollama.consume "" received)
                 +:+ nl +:+ "**ERROR**: "
                 +:+ str (default e (failure (Ollama.consume "" received))));
         EvInt 0 ]
  /\ escaped (Ollama.chat_streamly net self system history gen_conf image) = None
  /\ (Forall countable received ->
      events (Ollama.chat_streamly net self system history gen_conf image) =
        yielded (Ollama.consume "" received)
        ++ [ EvText (join "" (message_content <$> received)
                     +:+ nl +:+ "**ERROR**: " +:+ str e);
             EvInt 0 ]).
Proof.
  intros Hsys Hreply.
  assert (Hevents :
    events (Ollama.chat_streamly net self system history gen_conf image) =
      yielded (Ollama.consume "" received)
      ++ [ EvText (buffer_at_exit (Ollama.consume "" received)
                   +:+ nl +:+ "**ERROR**: "
                   +:+ str (default e (failure (Ollama.consume "" received))));
           EvInt 0 ]).
  { destruct Hreply as [Hreply | [Hreply ->]];
      rewrite (chat_streamly_events _ Hsys), Hreply; [|reflexivity].
    cbn [events Ollama.stream_events chunks ending].
    destruct (failure (Ollama.consume "" received)) as [cause|];
      cbn [default]; now rewrite <- app_assoc. }
  split; [exact Hevents|]. split.
  - now rewrite (chat_streamly_events _ Hsys).
  - intros Hall. rewrite Hevents.
    destruct (consume_countable "" received Hall) as (-> & -> & _).
    reflexivity.
Qed.

End StreamingChat.

Lemma chat_streamly_done_last_witness :
  Forall (fun r => done r = false) [Sample.piece "Hel"; Sample.piece "lo"]
  /\ done (mkResponse "" true (Count 3) (Count 2)) = true
  /\ usage_of (mkResponse "" true (Count 3) (Count 2)) = Some 5
  /\ events (Ollama.chat_streamly (Sample.scripted Sample.hello_stream) Sample.ollama
               None [Sample.user_turn "hi"] ∅ (AsStr ""))
     = [EvText "Hel"; EvText "Hello"; EvInt 5; EvText "Hello"; EvInt 0].
Proof.
  assert (Hopen : Forall (fun r => done r = false)
                    [Sample.piece "Hel"; Sample.piece "lo"])
    by (repeat constructor).
  split; [exact Hopen | split; [reflexivity | split; [reflexivity|]]].
  exact (proj1 (chat_streamly_done_last (Sample.scripted Sample.hello_stream)
                  Sample.ollama None [Sample.user_turn "hi"] ∅ (AsStr "")
                  [Sample.user_turn "hi"]
                  [Sample.piece "Hel"; Sample.piece "lo"]
                  (mkResponse "" true (Count 3) (Count 2)) 5
                  eq_refl eq_refl Hopen eq_refl eq_refl)).
Defined.

Lemma chat_streamly_null_counter_witness :
  Forall (fun r => done r = false) [Sample.piece "Hel"; Sample.piece "lo"]
  /\ done (mkResponse "" true Null (Count 2)) = true
  /\ usage_of (mkResponse "" true Null (Count 2)) = None
  /\ events (Ollama.chat_streamly (Sample.scripted Sample.null_count_stream)
               Sample.ollama None [Sample.user_turn "hi"] ∅ (AsStr ""))
     = [ EvText "Hel"; EvText "Hello";
         EvText ("Hello" +:+ nl +:+ "**ERROR**: unsupported operand type(s) for +: "
                 +:+ "'NoneType' and 'int'");
         EvInt 0 ].
Proof.
  assert (Hopen : Forall (fun r => done r = false)
                    [Sample.piece "Hel"; Sample.piece "lo"])
    by (repeat constructor).
  split; [exact Hopen | split; [reflexivity | split; [reflexivity|]]].
  exact (proj1 (chat_streamly_null_counter (Sample.scripted Sample.null_count_stream)
                  Sample.ollama None [Sample.user_turn "hi"] ∅ (AsStr "")
                  [Sample.user_turn "hi"]
                  [Sample.piece "Hel"; Sample.piece "lo"]
                  (mkResponse "" true Null (Count 2))
                  eq_refl eq_refl Hopen eq_refl eq_refl)).
Defined.

Lemma chat_streamly_backend_raises_witness :
  events (Ollama.chat_streamly (Sample.scripted Sample.broken_stream) Sample.ollama
            None [Sample.user_turn "hi"] ∅ (AsStr ""))
  = [ EvText "Hel";
      EvText ("Hel" +:+ nl +:+ "**ERROR**: Connection refused");
      EvInt 0 ].
Proof.
  exact (proj1 (chat_streamly_backend_raises (Sample.scripted Sample.broken_stream)
                  Sample.ollama None [Sample.user_turn "hi"] ∅ (AsStr "")
                  [Sample.user_turn "hi"] [Sample.piece "Hel"] Sample.refused
                  eq_refl (or_introl eq_refl))).
Defined.

(** ** Result shapes and the sentinel convention *)

Section Shapes.

Lemma text_only_bind {A} (m : Outcome A) (k : A -> Outcome Ret) :
  (forall a, text_only (k a)) -> text_only (m ≫= k).
Proof. intros Hk. destruct m as [a|e]; [apply Hk | intros r [=]]. Qed.

Lemma text_only_ret (text : string) : text_only (Returned (RText text)).
Proof. intros r [= <-]. now exists text. Qed.

Lemma pair_only_bind {A} (m : Outcome A) (k : A -> Outcome Ret) :
  (forall a, pair_only (k a)) -> pair_only (m ≫= k).
Proof. intros Hk. destruct m as [a|e]; [apply Hk | intros r [=]]. Qed.

Lemma pair_only_ret (text : string) (usage : Z) :
  pair_only (Returned (RPair text usage)).
Proof. intros r [= <-]. now exists text, usage. Qed.

(** A guarded text-only body always returns a text. *)
Lemma guarded_text (m : Outcome Ret) :
  text_only m -> exists text, try_except m error_text = Returned (RText text).
Proof.
  intros Hm. destruct m as [r|e]; cbn.
  - destruct (Hm r eq_refl) as [text ->]. now exists text.
  - now eexists.
Qed.

(** A guarded pair-only body always returns a pair. *)
Lemma guarded_pair (m : Outcome Ret) :
  pair_only m ->
  exists text usage, try_except m Ollama.error_pair = Returned (RPair text usage).
Proof.
  intros Hm. destruct m as [r|e]; cbn.
  - destruct (Hm r eq_refl) as (text & usage & ->). now exists text, usage.
  - now eexists _, _.
Qed.

Lemma openai_style_text_only net env self image prompt :
  text_only (fst (Hosted.openai_style_body net env self image prompt)).
Proof.
  unfold Hosted.openai_style_body. destruct (Base.image2base64 image) as [encoded image'].
  cbn [fst]. repeat (apply text_only_bind; intros ?). apply text_only_ret.
Qed.

Lemma anthropic_text_only net env self image prompt :
  text_only (fst (Hosted.anthropic_body net env self image prompt)).
Proof.
  unfold Hosted.anthropic_body. destruct (Base.image2base64 image) as [encoded image'].
  cbn [fst]. repeat (apply text_only_bind; intros ?). apply text_only_ret.
Qed.

Lemma gemini_text_only net env self image prompt :
  text_only (fst (Hosted.gemini_body net env self image prompt)).
Proof.
  unfold Hosted.gemini_body.
  destruct image as [b|data|img|s]; cbn [fst];
    try (destruct (read (seek b 0)) as [img_data b']; cbn [fst]);
    repeat (apply text_only_bind; intros ?); apply text_only_ret.
Qed.

(** [describe_with_prompt] of a hosted class never raises and returns a
    bare text. *)
Lemma hosted_returns_text net env self image prompt :
  hosted (cls self) ->
  exists text,
    fst (describe_with_prompt net env self image prompt) = Returned (RText text).
Proof.
  intros Hhosted. unfold describe_with_prompt.
  destruct (cls self); try (now destruct Hhosted);
    apply guarded_text;
    auto using openai_style_text_only, anthropic_text_only, gemini_text_only.
Qed.

Lemma generate_body_pair_only net self prompt image :
  pair_only (Ollama.generate_body net self prompt image).
Proof.
  unfold Ollama.generate_body.
  repeat (apply pair_only_bind; intros ?). apply pair_only_ret.
Qed.

(** The prompt of [Base] is a [str] or a function object: subscripting it
    as a message list raises [TypeError]. *)
Lemma message_text_type_error env self image :
  exists cause,
    Ollama.message_text (Base.vision_llm_prompt env self image)
      = Raised (mkExn TypeError cause).
Proof.
  unfold Base.vision_llm_prompt, vision_llm_describe_prompt.
  destruct (String.eqb (str_lower env (lang self)) "chinese");
    [destruct (prompts_import env)|]; eexists; vm_compute; reflexivity.
Qed.

(** Whatever the service does, the [try] block of [describe] fails on the
    prompt before the service is called. *)
Lemma generate_body_type_error net env self image :
  exists cause,
    Ollama.message_text (Base.vision_llm_prompt env self (AsStr ""))
      = Raised (mkExn TypeError cause)
    /\ try_except
         (Ollama.generate_body net self (Base.vision_llm_prompt env self (AsStr "")) image)
         Ollama.error_pair
       = Returned (RPair ("**ERROR**: " +:+ cause) 0).
Proof.
  destruct (message_text_type_error env self (AsStr "")) as [cause Hcause].
  exists cause. split; [exact Hcause|].
  unfold Ollama.generate_body. now rewrite Hcause.
Qed.

End Shapes.

(** C10. For every image, [OllamaCV.describe] returns the pair of the
    error marker followed by a cause, and 0: the prompt that [Base]
    produces is a [str] or a function object, never a message list, so the
    subscription [prompt[0]["content"][1]["text"]] raises [TypeError]
    inside the [try] block, before the service is called. *)
Theorem OllamaCV_describe_always_error net env self image :
  exists cause,
    Ollama.message_text (Base.prompt env self (AsStr ""))
      = Raised (mkExn TypeError cause)
    /\ Ollama.describe net env self image
       = Returned (RPair ("**ERROR**: " +:+ cause) 0).
Proof.
  destruct (message_text_type_error env self (AsStr "")) as [cause Hcause].
  exists cause. split; [exact Hcause|].
  unfold Ollama.describe, Ollama.generate_body, Base.prompt.
  rewrite Hcause. reflexivity.
Qed.

Section Sentinel.

Variables (net : Remote) (env : ModuleEnv) (self : Instance).

(** With the service down, a hosted [describe_with_prompt] that got as far
    as the service returns the marker followed by the service's error. *)
Lemma hosted_service_failure image prompt e data :
  hosted (cls self) ->
  fails_with net (client self) e ->
  image_bytes image = Some data ->
  (exists pil, Image_open net data = Returned pil) ->
  fst (describe_with_prompt net env self image prompt)
    = Returned (RText ("**ERROR**: " +:+ str e)).
Proof.
  intros Hhosted (Hcompl & Hmsg & Hgen & _) Hbytes [pil Hpil].
  unfold describe_with_prompt.
  destruct image as [b|raw|img|s]; try discriminate Hbytes;
    injection Hbytes as <-;
    destruct (cls self); try (now destruct Hhosted);
    unfold Hosted.openai_style_describe_with_prompt,
      Hosted.GeminiCV_describe_with_prompt,
      Hosted.AnthropicCV_describe_with_prompt, Hosted.guarded,
      Hosted.openai_style_body, Hosted.gemini_body, Hosted.anthropic_body,
      Base.image2base64, read, seek;
    cbn [fst snd buffer position mbind outcome_bind Py.bind];
    rewrite ?drop_0, ?Hcompl, ?Hmsg, ?Hpil; cbn [mbind outcome_bind Py.bind];
    rewrite ?Hgen; reflexivity.
Qed.

(** An image that is neither a buffer nor raw bytes is refused inside the
    [try] block of a hosted class. *)
Lemma hosted_bad_image image prompt :
  hosted (cls self) ->
  image_bytes image = None ->
  exists cause,
    fst (describe_with_prompt net env self image prompt)
      = Returned (RText ("**ERROR**: " +:+ cause)).
Proof.
  intros Hhosted Hbytes. unfold describe_with_prompt.
  destruct image as [b|raw|img|s]; try discriminate Hbytes;
    destruct (cls self); try (now destruct Hhosted);
    eexists; reflexivity.
Qed.

(** [OllamaCV.chat] returns a pair whenever the rewriting of the last turn
    went through. *)
Lemma chat_result_pair reply :
  exists text usage, Ollama.chat_result reply = Returned (RPair text usage).
Proof.
  apply guarded_pair. apply pair_only_bind; intros response.
  apply pair_only_bind; intros n. apply pair_only_ret.
Qed.

Lemma ollama_chat_unfold system history gen_conf image rewritten :
  Ollama.apply_system system history = Returned rewritten ->
  Ollama.chat net self system history gen_conf image =
    (Ollama.chat_result
       (chat_call net (client self)
          (Ollama.chat_request self (Ollama.attach_images image rewritten)
             gen_conf false)),
     Ollama.attach_images image rewritten).
Proof. intros Hsys. unfold Ollama.chat. now rewrite Hsys. Qed.

(** X25. What the guarded parts of the calls return.  For [GptV4],
    [QWenCV], [Zhipu4V], [GeminiCV] and [AnthropicCV], whose
    [describe_with_prompt] is guarded as a whole, the call never raises and
    always returns a bare text; that text is the error marker followed by
    the cause when the image is neither a buffer nor bytes, and when every
    call to the service raises.  For [OllamaCV], [describe],
    [describe_with_prompt] without a prompt, and [chat] on a conversation
    that the system-prompt rewriting accepts, always return a pair, which
    is the marker followed by the cause, and 0, when every call to the chat
    endpoint raises. *)
Theorem guarded_failures_become_sentinel :
  (hosted (cls self) -> forall image prompt,
     (exists text,
        fst (describe_with_prompt net env self image prompt) = Returned (RText text))
     /\ (forall e data,
           fails_with net (client self) e ->
           image_bytes image = Some data ->
           (exists pil, Image_open net data = Returned pil) ->
           fst (describe_with_prompt net env self image prompt)
             = Returned (RText ("**ERROR**: " +:+ str e)))
     /\ (image_bytes image = None ->
         exists cause,
           fst (describe_with_prompt net env self image prompt)
             = Returned (RText ("**ERROR**: " +:+ cause))))
  /\ (cls self = OllamaCV ->
      (forall image,
         exists cause,
           describe net env self image = Returned (RPair ("**ERROR**: " +:+ cause) 0))
      /\ (forall image prompt,
            truthy_opt prompt = false ->
            exists cause,
              fst (describe_with_prompt net env self image prompt)
                = Returned (RPair ("**ERROR**: " +:+ cause) 0))
      /\ (forall system history gen_conf image rewritten,
            Ollama.apply_system system history = Returned rewritten ->
            (exists text usage,
               fst (chat net self system history gen_conf image)
                 = Returned (RPair text usage))
            /\ (forall e,
                  (forall req, chat_call net (client self) req = Raised e) ->
                  fst (chat net self system history gen_conf image)
                    = Returned (RPair ("**ERROR**: " +:+ str e) 0)))).
Proof.
  split.
  - intros Hhosted image prompt. repeat split.
    + now apply hosted_returns_text.
    + intros e data. now apply hosted_service_failure.
    + now apply hosted_bad_image.
  - intros Hcls. split; [|split].
    + intros image. unfold describe. rewrite Hcls.
      destruct (generate_body_type_error net env self image) as (cause & _ & H).
      now exists cause.
    + intros image prompt Hfalsy. unfold describe_with_prompt. rewrite Hcls.
      cbn [fst]. unfold Ollama.describe_with_prompt. rewrite Hfalsy.
      destruct (generate_body_type_error net env self image) as (cause & _ & H).
      now exists cause.
    + intros system history gen_conf image rewritten Hsys.
      unfold chat. rewrite Hcls, (ollama_chat_unfold _ _ _ _ _ Hsys).
      cbn [fst]. split; [apply chat_result_pair|].
      intros e Hdown. now rewrite Hdown.
Qed.

End Sentinel.

(** C3. With the service down, [describe_with_prompt] of [QWenCV] and of
    [GptV4] returns the error text alone.  It is not the pair of that text
    and the count 0 that the tests of [QWenCV] unpack and that
    [OllamaCV.chat] returns for the same failure. *)
Theorem hosted_failure_is_not_a_pair :
  fst (describe_with_prompt Sample.unreachable Sample.installed Sample.qwen
         (AsBytesIO (mkBytesIO Sample.jpeg 0)) (Some "请详细描述这张图片的内容"))
    = Returned (RText "**ERROR**: Connection refused")
  /\ fst (describe_with_prompt Sample.unreachable Sample.installed Sample.gpt
            (AsBytes Sample.jpeg) None)
     = Returned (RText "**ERROR**: Connection refused")
  /\ ~ is_pair (RText "**ERROR**: Connection refused")
  /\ fst (chat Sample.unreachable Sample.ollama None [Sample.user_turn "hi"] ∅
            (AsBytes Sample.jpeg))
     = Returned (RPair "**ERROR**: Connection refused" 0).
Proof.
  split; [reflexivity|]. split; [reflexivity|].
  split; [intros (text & usage & [=]) | reflexivity].
Qed.

Lemma guarded_failures_become_sentinel_witness :
  hosted (cls Sample.gpt)
  /\ fails_with Sample.unreachable (client Sample.gpt) Sample.refused
  /\ fst (describe_with_prompt Sample.unreachable Sample.installed Sample.gpt
            (AsBytes Sample.jpeg) None)
     = Returned (RText "**ERROR**: Connection refused")
  /\ fst (chat Sample.unreachable Sample.ollama (Some "Be brief. ")
            [Sample.user_turn "hi"] ∅ (AsStr ""))
     = Returned (RPair "**ERROR**: Connection refused" 0).
Proof.
  assert (Hhosted : hosted (cls Sample.gpt)) by discriminate.
  assert (Hdown : forall c, fails_with Sample.unreachable c Sample.refused)
    by (intros c; repeat split).
  split; [exact Hhosted | split; [apply Hdown|]]. split.
  - exact (proj1 (proj2 (proj1 (guarded_failures_become_sentinel
             Sample.unreachable Sample.installed Sample.gpt) Hhosted
             (AsBytes Sample.jpeg) None))
           Sample.refused Sample.jpeg (Hdown _) eq_refl
           (ex_intro _ (mkPIL Sample.jpeg) eq_refl)).
  - exact (proj2 (proj2 (proj2 (proj2 (guarded_failures_become_sentinel
             Sample.unreachable Sample.installed Sample.ollama) eq_refl))
             (Some "Be brief. ") [Sample.user_turn "hi"] ∅ (AsStr "") _ eq_refl)
           Sample.refused (fun _ => eq_refl)).
Defined.

(** ** The capability contract across the registry *)

Section Contract.

Lemma hosted_lacks_describe net env self image :
  hosted (cls self) ->
  describe net env self image
    = Raised (mkExn AttributeError
                ("'" +:+ class_name (cls self)
                 +:+ "' object has no attribute 'describe'")).
Proof.
  intros Hhosted. unfold describe, no_attribute.
  destruct (cls self); try reflexivity. now destruct Hhosted.
Qed.

Lemma hosted_lacks_chat net self system history gen_conf image :
  hosted (cls self) ->
  chat net self system history gen_conf image
    = (Raised (mkExn AttributeError
                 ("'" +:+ class_name (cls self)
                  +:+ "' object has no attribute 'chat'")),
       history).
Proof.
  intros Hhosted. unfold chat, no_attribute.
  destruct (cls self); try reflexivity. now destruct Hhosted.
Qed.

Lemma hosted_lacks_chat_streamly net self system history gen_conf image :
  hosted (cls self) ->
  chat_streamly net self system history gen_conf image
    = mkRun []
        (Some (mkExn AttributeError
                 ("'" +:+ class_name (cls self)
                  +:+ "' object has no attribute 'chat_streamly'")))
        history.
Proof.
  intros Hhosted. unfold chat_streamly.
  destruct (cls self); try reflexivity. now destruct Hhosted.
Qed.

(** Whatever [OllamaCV.describe_with_prompt] returns is a pair. *)
Lemma ollama_describe_with_prompt_pair_only net env self image prompt :
  pair_only (Ollama.describe_with_prompt net env self image prompt).
Proof.
  unfold Ollama.describe_with_prompt.
  apply pair_only_bind; intros vision_prompt r Hr.
  destruct (guarded_pair _ (generate_body_pair_only net self vision_prompt image))
    as (text & usage & Hpair).
  rewrite Hpair in Hr. injection Hr as <-. now exists text, usage.
Qed.

(** X26. What each class of the registry answers to.  Every class exposes
    [describe_with_prompt]; [describe], [chat] and [chat_streamly] are
    exposed by [OllamaCV] alone, and calling them on an instance of
    another class raises [AttributeError].  The non-streaming operations
    of [OllamaCV] return only pairs of a text and a count, whereas
    [describe_with_prompt] of the other five classes returns a bare text. *)
Theorem contract_exposure :
  Forall (fun c => exposes c "describe_with_prompt" = true)
         (VisionModelFactory._PROVIDERS.*2)
  /\ (forall c name,
        name ∈ ["describe"; "chat"; "chat_streamly"] ->
        (exposes c name = true <-> c = OllamaCV))
  /\ (forall net env self image,
        hosted (cls self) ->
        exists e, describe net env self image = Raised e
                  /\ exn_class e = AttributeError)
  /\ (forall net self system history gen_conf image,
        hosted (cls self) ->
        exists e, fst (chat net self system history gen_conf image) = Raised e
                  /\ exn_class e = AttributeError)
  /\ (forall net self system history gen_conf image,
        hosted (cls self) ->
        exists e, chat_streamly net self system history gen_conf image
                    = mkRun [] (Some e) history
                  /\ exn_class e = AttributeError)
  /\ (forall net env self image prompt,
        hosted (cls self) ->
        exists text,
          fst (describe_with_prompt net env self image prompt) = Returned (RText text))
  /\ (forall net env self image prompt,
        cls self = OllamaCV ->
        pair_only (fst (describe_with_prompt net env self image prompt)))
  /\ (forall net env self image, pair_only (describe net env self image))
  /\ (forall net self system history gen_conf image,
        pair_only (fst (chat net self system history gen_conf image))).
Proof.
  split; [repeat constructor|].
  split.
  { intros c name Hname.
    assert (Hcases : name = "describe" \/ name = "chat" \/ name = "chat_streamly")
      by (rewrite !elem_of_cons, elem_of_nil in Hname; tauto).
    destruct Hcases as [-> | [-> | ->]]; destruct c; split;
      first [reflexivity | discriminate]. }
  split.
  { intros net env self image Hhosted. eexists.
    rewrite (hosted_lacks_describe _ _ _ _ Hhosted). split; reflexivity. }
  split.
  { intros net self system history gen_conf image Hhosted. eexists.
    rewrite (hosted_lacks_chat _ _ _ _ _ _ Hhosted). split; reflexivity. }
  split.
  { intros net self system history gen_conf image Hhosted. eexists.
    rewrite (hosted_lacks_chat_streamly _ _ _ _ _ _ Hhosted). split; reflexivity. }
  split; [intros; now apply hosted_returns_text|].
  split.
  { intros net env self image prompt Hcls. unfold describe_with_prompt.
    rewrite Hcls. apply ollama_describe_with_prompt_pair_only. }
  split.
  { intros net env self image r Hr. unfold describe, no_attribute in Hr.
    destruct (cls self); try discriminate Hr.
    destruct (guarded_pair _
                (generate_body_pair_only net self
                   (Base.prompt env self (AsStr "")) image))
      as (text & usage & Hpair).
    unfold Ollama.describe in Hr. rewrite Hpair in Hr.
    injection Hr as <-. now exists text, usage. }
  intros net self system history gen_conf image r Hr.
  unfold chat, no_attribute in Hr.
  destruct (cls self); try discriminate Hr.
  unfold Ollama.chat in Hr.
  destruct (Ollama.apply_system system history) as [rewritten|e];
    [|discriminate Hr].
  cbn [fst] in Hr.
  destruct (chat_result_pair
              (chat_call net (client self)
                 (Ollama.chat_request self (Ollama.attach_images image rewritten)
                    gen_conf false)))
    as (text & usage & Hpair).
  rewrite Hpair in Hr. injection Hr as <-. now exists text, usage.
Qed.

End Contract.

(** C6. [QWenCV] is in the registry and has no [describe], no [chat] and no
    [chat_streamly]: the call [describe(image)] that the tests of [QWenCV]
    make raises [AttributeError], and so does [chat].  [OllamaCV] has all
    three. *)
Theorem QWenCV_has_no_describe :
  ("qwen", QWenCV) ∈ VisionModelFactory._PROVIDERS
  /\ exposes QWenCV "describe" = false
  /\ exposes QWenCV "chat" = false
  /\ exposes QWenCV "chat_streamly" = false
  /\ describe Sample.unreachable Sample.installed Sample.qwen
       (AsBytesIO (mkBytesIO Sample.jpeg 0))
     = Raised (mkExn AttributeError "'QWenCV' object has no attribute 'describe'")
  /\ fst (chat Sample.unreachable Sample.qwen None [Sample.user_turn "hi"] ∅
            (AsBytes Sample.jpeg))
     = Raised (mkExn AttributeError "'QWenCV' object has no attribute 'chat'")
  /\ Forall (fun name => exposes OllamaCV name = true)
            ["describe"; "describe_with_prompt"; "chat"; "chat_streamly"].
Proof.
  split; [apply list_elem_of_further, list_elem_of_here|].
  repeat split; try reflexivity. repeat constructor.
Qed.

Lemma contract_exposure_witness :
  hosted (cls Sample.gpt)
  /\ "chat" ∈ ["describe"; "chat"; "chat_streamly"]
  /\ exposes Sample.ollama.(cls) "chat" = true
  /\ exists text,
       fst (describe_with_prompt Sample.unreachable Sample.installed Sample.gpt
              (AsBytes Sample.jpeg) None) = Returned (RText text).
Proof.
  assert (Hhosted : hosted (cls Sample.gpt)) by discriminate.
  assert (Hname : "chat" ∈ ["describe"; "chat"; "chat_streamly"])
    by (apply list_elem_of_further, list_elem_of_here).
  split; [exact Hhosted | split; [exact Hname | split]].
  - exact (proj2 (proj1 (proj2 contract_exposure) OllamaCV "chat" Hname) eq_refl).
  - exact (proj1 (proj2 (proj2 (proj2 (proj2 (proj2 contract_exposure)))))
             Sample.unreachable Sample.installed Sample.gpt
             (AsBytes Sample.jpeg) None Hhosted).
Defined.

(** ** What a chat does to the conversation *)

Section Conversation.

Implicit Types (history rewritten : list Turn) (t : Turn) (s : string).

Lemma truthy_nonempty s : s <> "" -> truthy s = true.
Proof.
  intros Hs. unfold truthy. destruct (String.eqb_spec s ""); [contradiction | reflexivity].
Qed.

(** With a non-empty system prompt the last turn, and no other position of
    the list, is overwritten. *)
Lemma apply_system_rewrites s history t :
  s <> "" ->
  last history = Some t ->
  Ollama.apply_system (Some s) history =
    Returned (<[ Nat.pred (length history) :=
                 Ollama.with_content t
                   (s +:+ content t +:+ "user query: " +:+ content t) ]> history).
Proof.
  intros Hs Hlast. unfold Ollama.apply_system.
  now rewrite (truthy_nonempty _ Hs), Hlast.
Qed.

Lemma last_nonempty history t : last history = Some t -> (0 < length history)%nat.
Proof. destruct history; [discriminate | cbn; lia]. Qed.

Lemma last_insert_last history t t' :
  last history = Some t ->
  last (<[ Nat.pred (length history) := t' ]> history) = Some t'.
Proof.
  intros Hlast. rewrite last_lookup, length_insert.
  apply list_lookup_insert_eq. pose proof (last_nonempty _ _ Hlast). lia.
Qed.

(** Attaching the image touches neither roles nor contents. *)
Lemma attach_content image t : content (Ollama.attach image t) = content t.
Proof. unfold Ollama.attach. now destruct (String.eqb (role t) "user"). Qed.

Lemma attach_role image t : role (Ollama.attach image t) = role t.
Proof. unfold Ollama.attach. now destruct (String.eqb (role t) "user"). Qed.

Lemma attach_images_content image history :
  content <$> Ollama.attach_images image history = content <$> history.
Proof.
  unfold Ollama.attach_images. rewrite <- list_fmap_compose.
  apply list_fmap_ext; intros _ t _. apply attach_content.
Qed.

(** The rewriting keeps, at every position, the role and the attachment. *)
Lemma apply_system_keeps system history rewritten i :
  Ollama.apply_system system history = Returned rewritten ->
  role <$> rewritten !! i = role <$> history !! i
  /\ images <$> rewritten !! i = images <$> history !! i.
Proof.
  unfold Ollama.apply_system.
  destruct system as [s|]; [destruct (truthy s)|]; try (now intros [= <-]).
  destruct (last history) as [t|] eqn:Hlast; [|discriminate].
  intros [= <-].
  destruct (decide (i = Nat.pred (length history))) as [->|Hne].
  - rewrite list_lookup_insert_eq by (pose proof (last_nonempty _ _ Hlast); lia).
    rewrite <- last_lookup, Hlast. now split.
  - now rewrite list_lookup_insert_ne by congruence.
Qed.

Variables (net : Remote) (self : Instance).
Variables (gen_conf : gmap string Q) (image : ImageArg).

(** C7 (amended). With a non-empty system prompt [s] and a conversation
    whose last turn, whatever its role, has content [X], [chat] and
    [chat_streamly] send downstream a conversation whose last turn has
    content [s + X + "user query: " + X].  With an empty or absent system
    prompt the contents of the turns are sent as they are. *)
Theorem system_prompt_rewrites_last_turn history :
  (forall s t,
     s <> "" ->
     last history = Some t ->
     exists sent,
       Ollama.chat net self (Some s) history gen_conf image
         = (Ollama.chat_result
              (chat_call net (client self)
                 (Ollama.chat_request self sent gen_conf false)), sent)
       /\ Ollama.chat_streamly net self (Some s) history gen_conf image
          = mkRun (Ollama.stream_events
                     (chat_stream net (client self)
                        (Ollama.chat_request self sent gen_conf true))
                   ++ [EvInt 0]) None sent
       /\ content <$> last sent
          = Some (s +:+ content t +:+ "user query: " +:+ content t))
  /\ (forall system,
        system = None \/ system = Some "" ->
        exists sent,
          Ollama.chat net self system history gen_conf image
            = (Ollama.chat_result
                 (chat_call net (client self)
                    (Ollama.chat_request self sent gen_conf false)), sent)
          /\ Ollama.chat_streamly net self system history gen_conf image
             = mkRun (Ollama.stream_events
                        (chat_stream net (client self)
                           (Ollama.chat_request self sent gen_conf true))
                      ++ [EvInt 0]) None sent
          /\ content <$> sent = content <$> history).
Proof.
  split.
  - intros s t Hs Hlast.
    pose proof (apply_system_rewrites _ _ _ Hs Hlast) as Hsys.
    eexists. split; [|split].
    + apply (ollama_chat_unfold _ _ _ _ _ _ _ Hsys).
    + apply (chat_streamly_events _ _ _ _ _ _ _ Hsys).
    + unfold Ollama.attach_images.
      rewrite fmap_last, (last_insert_last _ _ _ Hlast). cbn.
      now rewrite attach_content.
  - intros system Hsystem.
    assert (Hsys : Ollama.apply_system system history = Returned history)
      by (destruct Hsystem as [-> | ->]; reflexivity).
    eexists. split; [|split].
    + apply (ollama_chat_unfold _ _ _ _ _ _ _ Hsys).
    + apply (chat_streamly_events _ _ _ _ _ _ _ Hsys).
    + apply attach_images_content.
Qed.

(** C9 (amended). After [chat] or [chat_streamly], on a conversation that
    the system-prompt rewriting accepts, every turn whose role is [user]
    carries the attachment [[image]], wherever it stands in the
    conversation; the roles are those of the conversation passed in, and a
    turn with another role keeps the attachment it had. *)
Theorem images_attached_to_every_user_turn system history rewritten :
  Ollama.apply_system system history = Returned rewritten ->
  history_after (Ollama.chat_streamly net self system history gen_conf image)
    = snd (Ollama.chat net self system history gen_conf image)
  /\ role <$> snd (Ollama.chat net self system history gen_conf image)
     = role <$> history
  /\ forall i t,
       snd (Ollama.chat net self system history gen_conf image) !! i = Some t ->
       (role t = "user" -> images t = Some [image])
       /\ (role t <> "user" -> images <$> history !! i = Some (images t)).
Proof.
  intros Hsys.
  rewrite (chat_streamly_events _ _ _ _ _ _ _ Hsys),
    (ollama_chat_unfold _ _ _ _ _ _ _ Hsys).
  cbn [history_after snd]. split; [reflexivity|]. split.
  - apply list_eq; intros i. unfold Ollama.attach_images.
    rewrite !list_lookup_fmap.
    destruct (apply_system_keeps _ _ _ i Hsys) as [Hrole _].
    rewrite <- Hrole.
    destruct (rewritten !! i) as [t|]; [cbn; now rewrite attach_role | reflexivity].
  - intros i t Hi. unfold Ollama.attach_images in Hi.
    rewrite list_lookup_fmap in Hi.
    destruct (apply_system_keeps _ _ _ i Hsys) as [_ Himages].
    destruct (rewritten !! i) as [t0|] eqn:Ht0; [|discriminate Hi].
    cbn in Hi, Himages. injection Hi as <-. unfold Ollama.attach.
    destruct (String.eqb_spec (role t0) "user") as [Huser|Hother]; cbn; split;
      try reflexivity; try contradiction; intros _; now rewrite <- Himages.
Qed.

End Conversation.

(** C7 (as stated) fails: the conversation ends with an assistant turn, its
    last user turn has content [X], and what is sent ends with the
    rewritten assistant turn; the user turn is sent as it was. *)
Lemma system_prompt_rewrites_assistant_turn :
  content <$> last_user_turn [Sample.user_turn "X"; Sample.assistant_turn "Y"]
    = Some "X"
  /\ content <$> snd (Ollama.chat Sample.spy Sample.ollama (Some "S")
                        [Sample.user_turn "X"; Sample.assistant_turn "Y"]
                        ∅ (AsStr ""))
     = ["X"; "SYuser query: Y"]
  /\ fst (Ollama.chat Sample.spy Sample.ollama (Some "S")
            [Sample.user_turn "X"; Sample.assistant_turn "Y"] ∅ (AsStr ""))
     = Returned (RPair "SYuser query: Y" 0)
  /\ "SYuser query: Y" <> "SXuser query: X".
Proof. repeat split; try reflexivity. discriminate. Qed.

Lemma system_prompt_rewrites_last_turn_witness :
  "S" <> ""
  /\ last [Sample.user_turn "X"] = Some (Sample.user_turn "X")
  /\ exists sent,
       Ollama.chat Sample.spy Sample.ollama (Some "S") [Sample.user_turn "X"]
         ∅ (AsStr "")
         = (Ollama.chat_result
              (chat_call Sample.spy (client Sample.ollama)
                 (Ollama.chat_request Sample.ollama sent ∅ false)), sent)
       /\ content <$> last sent = Some "SXuser query: X".
Proof.
  assert (Hs : "S" <> "") by discriminate.
  split; [exact Hs | split; [reflexivity|]].
  destruct (proj1 (system_prompt_rewrites_last_turn Sample.spy Sample.ollama ∅
                     (AsStr "") [Sample.user_turn "X"])
              "S" (Sample.user_turn "X") Hs eq_refl)
    as (sent & Hchat & _ & Hlast).
  exists sent. split; [exact Hchat | exact Hlast].
Defined.

(** C9 (as stated) fails: the first of two user turns, which had no
    attachment, carries the image after the call. *)
Lemma earlier_user_turn_gets_image :
  snd (Ollama.chat Sample.spy Sample.ollama None
         [Sample.user_turn "first"; Sample.assistant_turn "ok";
          Sample.user_turn "second"] ∅ (AsBytes Sample.jpeg)) !! 0%nat
    = Some (mkTurn "user" "first" (Some [AsBytes Sample.jpeg]))
  /\ history_after
       (Ollama.chat_streamly Sample.spy Sample.ollama None
          [Sample.user_turn "first"; Sample.assistant_turn "ok";
           Sample.user_turn "second"] ∅ (AsBytes Sample.jpeg)) !! 0%nat
     = Some (mkTurn "user" "first" (Some [AsBytes Sample.jpeg])).
Proof. split; reflexivity. Qed.

Lemma images_attached_to_every_user_turn_witness :
  Ollama.apply_system None [Sample.user_turn "first"; Sample.user_turn "second"]
    = Returned [Sample.user_turn "first"; Sample.user_turn "second"]
  /\ role <$> snd (Ollama.chat Sample.spy Sample.ollama None
                     [Sample.user_turn "first"; Sample.user_turn "second"]
                     ∅ (AsBytes Sample.jpeg))
     = ["user"; "user"].
Proof.
  split; [reflexivity|].
  exact (proj1 (proj2 (images_attached_to_every_user_turn Sample.spy Sample.ollama
                         ∅ (AsBytes Sample.jpeg) None
                         [Sample.user_turn "first"; Sample.user_turn "second"]
                         _ eq_refl))).
Defined.

(** ** Image normalisation *)

Section Normalisation.

(** X27. For an in-memory buffer at any read position, and for the raw
    byte sequence with the same bytes, [image2base64] succeeds with the
    same payload, the base64 encoding of all the bytes: the buffer is
    rewound to 0 before it is read, and left at its end.
    [describe_with_prompt] of the five hosted classes therefore does the
    same for these representations of an image.  A decoded image object is
    refused with [ValueError]. *)
Theorem image2base64_buffer_or_bytes (data : list byte) (pos : nat) :
  Base.image2base64 (AsBytes data)
    = (Returned (Base64.b64encode data), AsBytes data)
  /\ Base.image2base64 (AsBytesIO (mkBytesIO data pos))
     = (Returned (Base64.b64encode data),
        AsBytesIO (mkBytesIO data (length data)))
  /\ fst (read (seek (mkBytesIO data pos) 0)) = data
  /\ (forall net env self prompt,
        hosted (cls self) ->
        fst (describe_with_prompt net env self (AsBytesIO (mkBytesIO data pos)) prompt)
          = fst (describe_with_prompt net env self (AsBytes data) prompt))
  /\ (forall img,
        fst (Base.image2base64 (AsPIL img))
          = Raised (mkExn ValueError "binary must be BytesIO or bytes")).
Proof.
  split; [reflexivity|]. split; [reflexivity|]. split; [reflexivity|].
  split; [|reflexivity].
  intros net env self prompt Hhosted. unfold describe_with_prompt.
  destruct (cls self); try (now destruct Hhosted); reflexivity.
Qed.

End Normalisation.

(** C8. A decoded image object is not normalised: [image2base64] raises
    [ValueError] for the image that [Image.open] returns, whereas the
    buffer it was opened from and the bytes of that buffer both encode to
    the payload that the test of [image2base64] expects for all three. *)
Theorem image2base64_refuses_decoded_image :
  fst (Base.image2base64 (AsPIL (mkPIL Sample.jpeg)))
    = Raised (mkExn ValueError "binary must be BytesIO or bytes")
  /\ fst (Base.image2base64 (AsBytesIO (mkBytesIO Sample.jpeg 0))) = Returned "/9j/4AAQ"
  /\ fst (Base.image2base64 (AsBytes Sample.jpeg)) = Returned "/9j/4AAQ".
Proof. repeat split; reflexivity. Qed.

Lemma image2base64_buffer_or_bytes_witness :
  hosted (cls Sample.gpt)
  /\ fst (Base.image2base64 (AsBytesIO (mkBytesIO Sample.jpeg 4)))
     = fst (Base.image2base64 (AsBytes Sample.jpeg))
  /\ fst (describe_with_prompt Sample.unreachable Sample.installed Sample.gpt
            (AsBytesIO (mkBytesIO Sample.jpeg 4)) None)
     = fst (describe_with_prompt Sample.unreachable Sample.installed Sample.gpt
              (AsBytes Sample.jpeg) None).
Proof.
  assert (Hhosted : hosted (cls Sample.gpt)) by discriminate.
  split; [exact Hhosted|]. split.
  - exact (eq_trans
             (f_equal fst (proj1 (proj2 (image2base64_buffer_or_bytes Sample.jpeg 4))))
             (eq_sym (f_equal fst (proj1 (image2base64_buffer_or_bytes Sample.jpeg 4))))).
  - exact (proj1 (proj2 (proj2 (proj2 (image2base64_buffer_or_bytes Sample.jpeg 4))))
             Sample.unreachable Sample.installed Sample.gpt None Hhosted).
Defined.

(** ** The factory *)

Section Factory.

Import VisionModelFactory.

Lemma contains_app_r needle a b :
  contains needle b = true -> contains needle (a +:+ b) = true.
Proof.
  intros Hb. induction a as [|c a IH]; [exact Hb|].
  rewrite append_cons. cbn [contains]. rewrite IH. apply orb_true_r.
Qed.

Lemma unknown_provider_class provider :
  provider ∉ provider_keys -> provider_class provider = None.
Proof. intros Hp. now apply not_elem_of_list_to_map_1. Qed.

(** A registered identifier is ASCII text in lower case: [str.lower] keeps
    it. *)
Lemma registered_key_lower env p c : (p, c) ∈ _PROVIDERS -> str_lower env p = p.
Proof.
  intros Hreg. unfold _PROVIDERS in Hreg.
  rewrite !elem_of_cons, elem_of_nil in Hreg.
  destruct Hreg as [[= -> ->]|[[= -> ->]|[[= -> ->]|[[= -> ->]|[[= -> ->]|[[= -> ->]|[]]]]]]];
    match goal with
    | |- str_lower env ?k = _ => exact (str_lower_ascii env k eq_refl)
    end.
Qed.

(** A provider the registry knows is one of its six entries. *)
Lemma provider_class_registered provider c :
  provider_class provider = Some c -> (provider, c) ∈ _PROVIDERS.
Proof. apply elem_of_list_to_map_2. Qed.

Lemma registered_provider_class provider c :
  (provider, c) ∈ _PROVIDERS -> provider_class provider = Some c.
Proof.
  intros Hreg. unfold _PROVIDERS in Hreg.
  rewrite !elem_of_cons, elem_of_nil in Hreg.
  destruct Hreg as [[= -> ->]|[[= -> ->]|[[= -> ->]|[[= -> ->]|[[= -> ->]|[[= -> ->]|[]]]]]]];
    reflexivity.
Qed.

Lemma falsy_empty s : truthy s = false -> s = "".
Proof.
  unfold truthy. destruct (String.eqb_spec s ""); [trivial | discriminate].
Qed.

(** The chain of defaults in [create_model] gives every class but
    [OllamaCV] the default of its constructor. *)
Lemma default_model_name_registered provider c name :
  (provider, c) ∈ _PROVIDERS ->
  default_model_name provider name
    = if truthy name then name else default "" (signature_default c).
Proof.
  intros Hreg. unfold _PROVIDERS in Hreg.
  rewrite !elem_of_cons, elem_of_nil in Hreg. unfold default_model_name.
  destruct (truthy name) eqn:Hname; [reflexivity|].
  destruct Hreg as [[= -> ->]|[[= -> ->]|[[= -> ->]|[[= -> ->]|[[= -> ->]|[[= -> ->]|[]]]]]]];
    cbn; try reflexivity.
  now apply falsy_empty.
Qed.

(** The six constructors: the import, then the client, then the instance. *)
Lemma construct_cases env c api_key name (kwargs : gmap string string) :
  if importable env c
  then match refusal env c api_key with
       | Some e => construct env c api_key name kwargs = Raised e
       | None =>
           exists inst,
             construct env c api_key name kwargs = Returned inst
             /\ cls inst = c
             /\ model_name inst = name
             /\ lang inst = dict_get kwargs "lang" "Chinese"
             /\ key inst = (if decide (c = OllamaCV) then None else Some api_key)
       end
  else exists e,
         construct env c api_key name kwargs = Raised e /\ exn_class e = ImportError.
Proof.
  destruct c; cbn [construct importable refusal sdk_client mbind option_bind];
    unfold new_client;
    repeat match goal with
    | |- context [if ?flag env then _ else _] => destruct (flag env)
    | |- context [client_init env ?handle] => destruct (client_init env handle)
    end;
    cbn [mbind outcome_bind Py.bind];
    try reflexivity;
    eexists; repeat split; reflexivity.
Qed.

(** What [create_model] does for a registered provider. *)
Lemma create_model_cases env config c :
  provider_class (str_lower env (dict_get config "provider" "openai")) = Some c ->
  if importable env c
  then match refusal env c (dict_get config "api_key" "") with
       | Some e => create_model env config = Raised e
       | None =>
           exists inst,
             create_model env config = Returned inst
             /\ cls inst = c
             /\ model_name inst
                = (if truthy (dict_get config "model_name" "")
                   then dict_get config "model_name" ""
                   else default "" (signature_default c))
             /\ lang inst = dict_get config "lang" "Chinese"
             /\ key inst = (if decide (c = OllamaCV) then None
                            else Some (dict_get config "api_key" ""))
       end
  else exists e, create_model env config = Raised e /\ exn_class e = ImportError.
Proof.
  intros Hclass. unfold create_model. rewrite Hclass.
  apply provider_class_registered in Hclass.
  rewrite (default_model_name_registered _ _ _ Hclass).
  assert (Hlang :
    dict_get (if truthy (dict_get config "base_url" "")
              then <[ "base_url" := dict_get config "base_url" "" ]>
                     ({[ "lang" := dict_get config "lang" "Chinese" ]}
                        : gmap string string)
              else {[ "lang" := dict_get config "lang" "Chinese" ]})
      "lang" "Chinese"
    = dict_get config "lang" "Chinese").
  { destruct (truthy (dict_get config "base_url" ""));
      unfold dict_get at 1; now simplify_map_eq. }
  match goal with
  | |- context [construct env c ?api_key ?name ?kwargs] =>
      pose proof (construct_cases env c api_key name kwargs) as Hconstruct
  end.
  now rewrite Hlang in Hconstruct.
Qed.

(** C4 (amended). For a provider identifier that is not in the registry,
    [create_model] raises [ValueError] with the message
    [不支持的提供商: ] followed by the identifier as [str.lower] returns it,
    and nothing else; [create_vision_model] on a mapping does the same.
    The registered identifiers are enumerated by another error: the one
    [create_vision_model] raises for a string that is no registered
    identifier, has none of the configuration-file extensions and cannot
    be loaded as a configuration file. *)
Theorem unknown_provider_error env host :
  (forall config,
     str_lower env (dict_get config "provider" "openai") ∉ provider_keys ->
     create_model env config
       = Raised (mkExn ValueError
                   ("不支持的提供商: "
                    +:+ str_lower env (dict_get config "provider" "openai")))
     /\ create_vision_model env host (ConfigDict config)
        = create_model env config)
  /\ (forall s e,
        str_lower env s ∉ provider_keys ->
        endswith s ".yaml" = false ->
        endswith s ".yml" = false ->
        endswith s ".json" = false ->
        create_from_config_file env host s = Raised e ->
        exists msg,
          create_vision_model env host (ConfigStr s) = Raised (mkExn ValueError msg)
          /\ msg = "无效的配置: " +:+ s +:+ "。支持的提供商: "
                   +:+ "['openai', 'qwen', 'zhipu', 'ollama', 'gemini', 'anthropic']"
          /\ enumerates_registry msg = true).
Proof.
  split.
  - intros config Hunknown. split; [|reflexivity].
    unfold create_model. now rewrite (unknown_provider_class _ Hunknown).
  - intros s e Hunknown Hyaml Hyml Hjson Hload.
    eexists. split; [|split; [reflexivity|]].
    + unfold create_vision_model.
      rewrite (bool_decide_eq_false_2 _ Hunknown), Hyaml, Hyml, Hjson, Hload.
      reflexivity.
    + unfold enumerates_registry. rewrite forallb_forall. intros k Hk.
      do 2 apply contains_app_r.
      cbn in Hk. intuition (subst k; reflexivity).
Qed.

(** C5 (amended). For a registered provider identifier [p] of class [c],
    [create_model] on the configuration that sets only the provider passes
    the empty API key to the constructor of [c].  It succeeds when the
    client library of [c] can be imported and the constructor of its
    client accepts the empty key; it raises [ImportError] when the library
    cannot be imported, and otherwise what the client's constructor
    raises.  When it succeeds, the instance has the model name that the
    signature of [c]'s constructor declares as default; for [ollama],
    whose constructor declares none, the model name is the empty string. *)
Theorem create_model_minimal_config env p c :
  (p, c) ∈ _PROVIDERS ->
  if importable env c
  then match refusal env c "" with
       | Some e => create_model env {[ "provider" := p ]} = Raised e
       | None =>
           exists inst,
             create_model env {[ "provider" := p ]} = Returned inst
             /\ cls inst = c
             /\ match signature_default c with
                | Some name => model_name inst = name
                | None => c = OllamaCV /\ model_name inst = ""
                end
       end
  else exists e,
         create_model env {[ "provider" := p ]} = Raised e
         /\ exn_class e = ImportError.
Proof.
  intros Hreg.
  pose proof (create_model_cases env {[ "provider" := p ]} c) as Hcases.
  assert (Hp : dict_get ({[ "provider" := p ]} : gmap string string) "provider" "openai" = p)
    by (unfold dict_get; now simplify_map_eq).
  assert (Hkey : dict_get ({[ "provider" := p ]} : gmap string string) "api_key" "" = "")
    by (unfold dict_get; now simplify_map_eq).
  assert (Hname : dict_get ({[ "provider" := p ]} : gmap string string) "model_name" "" = "")
    by (unfold dict_get; now simplify_map_eq).
  rewrite Hp, Hkey, Hname, (registered_key_lower env _ _ Hreg) in Hcases.
  specialize (Hcases (registered_provider_class _ _ Hreg)).
  destruct (importable env c); [|exact Hcases].
  destruct (refusal env c ""); [exact Hcases|].
  destruct Hcases as (inst & Hcreate & Hcls & Hmodel & _).
  exists inst. split; [exact Hcreate|]. split; [exact Hcls|].
  cbn [truthy String.eqb negb] in Hmodel.
  unfold _PROVIDERS in Hreg. rewrite !elem_of_cons, elem_of_nil in Hreg.
  destruct Hreg as [[= -> ->]|[[= -> ->]|[[= -> ->]|[[= -> ->]|[[= -> ->]|[[= -> ->]|[]]]]]]];
    cbn in *; auto.
Qed.

End Factory.

(** C4 (as stated) fails: the error of [create_model] for an unregistered
    identifier mentions that identifier and no registered one. *)
Lemma unknown_provider_message_lists_nothing :
  VisionModelFactory.create_model Sample.installed {[ "provider" := "invalid_provider" ]}
    = Raised (mkExn ValueError "不支持的提供商: invalid_provider")
  /\ enumerates_registry "不支持的提供商: invalid_provider" = false
  /\ Forall (fun k => contains k "不支持的提供商: invalid_provider" = false)
            VisionModelFactory.provider_keys.
Proof. split; [reflexivity | split; [reflexivity | repeat constructor]]. Qed.

Lemma unknown_provider_error_witness :
  (str_lower Sample.installed (dict_get Sample.misspelt "provider" "openai")
     ∉ VisionModelFactory.provider_keys)
  /\ VisionModelFactory.create_model Sample.installed Sample.misspelt
     = Raised (mkExn ValueError "不支持的提供商: invalid").
Proof.
  assert (Hunknown :
    str_lower Sample.installed (dict_get Sample.misspelt "provider" "openai")
      ∉ VisionModelFactory.provider_keys)
    by (apply (bool_decide_eq_false_1 _); reflexivity).
  split; [exact Hunknown|].
  exact (proj1 (proj1 (unknown_provider_error Sample.installed Sample.nowhere)
                  Sample.misspelt Hunknown)).
Defined.

(** C5 (as stated) fails: for [ollama] the minimal configuration yields an
    instance whose model name is empty, and the constructor of [OllamaCV]
    declares no default model; for [qwen], with a client library that
    refuses an empty key, it yields no instance. *)
Lemma ollama_minimal_config_has_no_model :
  ("ollama", OllamaCV) ∈ VisionModelFactory._PROVIDERS
  /\ VisionModelFactory.create_model Sample.installed {[ "provider" := "ollama" ]}
     = Returned (mkInstance OllamaCV None "" "Chinese"
                   (OllamaClient "http://localhost:11434"))
  /\ VisionModelFactory.signature_default OllamaCV = None
  /\ VisionModelFactory.create_model Sample.keyed {[ "provider" := "qwen" ]}
     = Raised Sample.key_required.
Proof.
  split; [|repeat split; reflexivity].
  do 3 apply list_elem_of_further. apply list_elem_of_here.
Qed.

Lemma create_model_minimal_config_witness :
  ("qwen", QWenCV) ∈ VisionModelFactory._PROVIDERS
  /\ ("ollama", OllamaCV) ∈ VisionModelFactory._PROVIDERS
  /\ VisionModelFactory.create_model Sample.keyed {[ "provider" := "qwen" ]}
     = Raised Sample.key_required
  /\ (exists inst,
        VisionModelFactory.create_model Sample.installed {[ "provider" := "qwen" ]}
          = Returned inst
        /\ cls inst = QWenCV
        /\ model_name inst = "qwen-vl-max")
  /\ (exists inst,
        VisionModelFactory.create_model Sample.keyed {[ "provider" := "ollama" ]}
          = Returned inst
        /\ cls inst = OllamaCV
        /\ OllamaCV = OllamaCV /\ model_name inst = "").
Proof.
  assert (Hqwen : ("qwen", QWenCV) ∈ VisionModelFactory._PROVIDERS)
    by (apply list_elem_of_further, list_elem_of_here).
  assert (Hollama : ("ollama", OllamaCV) ∈ VisionModelFactory._PROVIDERS)
    by (do 3 apply list_elem_of_further; apply list_elem_of_here).
  split; [exact Hqwen|]. split; [exact Hollama|]. split; [|split].
  - exact (create_model_minimal_config Sample.keyed "qwen" QWenCV Hqwen).
  - exact (create_model_minimal_config Sample.installed "qwen" QWenCV Hqwen).
  - exact (create_model_minimal_config Sample.keyed "ollama" OllamaCV Hollama).
Defined.

(** * Further properties of the code *)

(** ** Streaming chat, whatever the chunks are *)

Section StreamAnatomy.

Implicit Types (ans : string) (resps : list ChatResponse).

Lemma text_upto_succ resps k r :
  resps !! k = Some r ->
  text_upto resps (S k) = text_upto resps k +:+ message_content r.
Proof.
  intros Hk. unfold text_upto.
  rewrite (take_S_r _ _ _ Hk), fmap_app.
  change (message_content <$> [r]) with [message_content r].
  apply join_snoc.
Qed.

Lemma text_upto_all resps :
  text_upto resps (length resps) = join "" (message_content <$> resps).
Proof. unfold text_upto. now rewrite firstn_all. Qed.

Variable net : Remote.
Variables (self : Instance) (system : option string) (history : list Turn).
Variables (gen_conf : gmap string Q) (image : ImageArg).

Local Abbreviation request rewritten :=
  (Ollama.chat_request self (Ollama.attach_images image rewritten) gen_conf true).

(** X1. For chunks of which those marked done report their counters as
    integers or not at all: whatever flags the chunks carry,
    [chat_streamly] yields one text event per chunk, the k-th carrying the
    text of the first k chunks, and one more, with the error suffix, if
    the iteration raises; its integer events are the usage of each chunk
    marked done, in order, followed by the final 0.  A chunk marked done
    does not end the loop. *)
Theorem chat_streamly_anatomy rewritten received finish :
  Ollama.apply_system system history = Returned rewritten ->
  chat_stream net (client self) (request rewritten)
    = Returned (mkStream received finish) ->
  Forall countable received ->
  texts_of (events (Ollama.chat_streamly net self system history gen_conf image))
    = ((fun k => text_upto received (S k)) <$> seq 0 (length received))
      ++ match finish with
         | Some e => [join "" (message_content <$> received)
                      +:+ nl +:+ "**ERROR**: " +:+ str e]
         | None => []
         end
  /\ ints_of (events (Ollama.chat_streamly net self system history gen_conf image))
     = omap usage_of (filter (fun r => done r = true) received) ++ [0].
Proof.
  intros Hsys Hreply Hall.
  rewrite (chat_streamly_events _ _ _ _ _ _ _ Hsys), Hreply.
  cbn [events Ollama.stream_events chunks ending].
  destruct (consume_countable "" received Hall) as (Hfail & Hbuf & Htexts & Hints).
  rewrite Hfail, Hbuf. change ("" +:+ ?s) with s in *.
  destruct finish as [e|];
    rewrite ?texts_of_app, ?ints_of_app, Htexts, Hints;
    cbn [texts_of ints_of omap Ollama.error_event];
    rewrite ?app_nil_r; split; reflexivity.
Qed.

(** X2. Each text event of [chat_streamly] extends the one before it: the
    caller may keep the latest text and drop the earlier ones. *)
Theorem chat_streamly_texts_grow rewritten received finish i earlier later :
  Ollama.apply_system system history = Returned rewritten ->
  chat_stream net (client self) (request rewritten)
    = Returned (mkStream received finish) ->
  texts_of (events (Ollama.chat_streamly net self system history gen_conf image))
    !! i = Some earlier ->
  texts_of (events (Ollama.chat_streamly net self system history gen_conf image))
    !! S i = Some later ->
  exists more, later = earlier +:+ more.
Proof.
  intros Hsys Hreply.
  rewrite (chat_streamly_events _ _ _ _ _ _ _ Hsys), Hreply.
  cbn [events Ollama.stream_events chunks ending].
  assert (Hgrow : forall raised,
    growing ""
      (texts_of
         (match raised with
          | Some e =>
              yielded (Ollama.consume "" received)
              ++ [Ollama.error_event
                    (buffer_at_exit (Ollama.consume "" received)) e]
          | None => yielded (Ollama.consume "" received)
          end ++ [EvInt 0]))).
  { intros [e|]; rewrite !texts_of_app; cbn [texts_of omap Ollama.error_event];
      rewrite ?app_nil_r; apply consume_growing. exact "". }
  intros Hi HSi. eapply growing_lookup; [apply Hgrow | exact Hi | exact HSi].
Qed.

(** X3. With a non-empty system prompt and an empty conversation, [chat]
    raises [IndexError] to the caller and [chat_streamly] raises it at its
    first step: [history[-1]] is evaluated before the [try] block.
    Nothing is sent to the service, nothing is yielded, and the
    conversation stays empty. *)
Theorem chat_on_empty_conversation (net' : Remote) :
  truthy_opt system = true ->
  history = [] ->
  Ollama.chat net self system history gen_conf image
    = (Raised (mkExn IndexError "list index out of range"), [])
  /\ Ollama.chat_streamly net self system history gen_conf image
     = mkRun [] (Some (mkExn IndexError "list index out of range")) []
  /\ Ollama.chat net self system history gen_conf image
     = Ollama.chat net' self system history gen_conf image
  /\ Ollama.chat_streamly net self system history gen_conf image
     = Ollama.chat_streamly net' self system history gen_conf image.
Proof.
  intros Hsys ->. unfold Ollama.chat, Ollama.chat_streamly, Ollama.apply_system.
  destruct system as [s|]; [|discriminate Hsys]. cbn in Hsys. rewrite Hsys.
  repeat split.
Qed.

(** X4. When the service answers a chat, [chat] returns the stripped text
    with [eval_count + prompt_eval_count], a missing [prompt_eval_count]
    counting as 0.  A reply without [eval_count] is reported as the error
    [KeyError], and a reply that holds [None] for either counter as the
    error [TypeError] of the addition, although the text arrived. *)
Theorem chat_usage_accounting rewritten response :
  Ollama.apply_system system history = Returned rewritten ->
  chat_call net (client self)
    (Ollama.chat_request self (Ollama.attach_images image rewritten) gen_conf false)
    = Returned response ->
  fst (Ollama.chat net self system history gen_conf image)
    = match eval_count response, prompt_eval_count response with
      | Count n, Count m =>
          Returned (RPair (strip (message_content response)) (n + m))
      | Count n, Missing =>
          Returned (RPair (strip (message_content response)) (n + 0))
      | Count _, Null =>
          Returned (RPair ("**ERROR**: unsupported operand type(s) for +: "
                           +:+ "'int' and 'NoneType'") 0)
      | Null, Null =>
          Returned (RPair ("**ERROR**: unsupported operand type(s) for +: "
                           +:+ "'NoneType' and 'NoneType'") 0)
      | Null, _ =>
          Returned (RPair ("**ERROR**: unsupported operand type(s) for +: "
                           +:+ "'NoneType' and 'int'") 0)
      | Missing, _ => Returned (RPair "**ERROR**: 'eval_count'" 0)
      end.
Proof.
  intros Hsys Hreply.
  rewrite (ollama_chat_unfold _ _ _ _ _ _ _ Hsys), Hreply. cbn [fst].
  unfold Ollama.chat_result, Ollama.chat_usage.
  cbn [mbind outcome_bind Py.bind].
  destruct (eval_count response), (prompt_eval_count response); reflexivity.
Qed.

End StreamAnatomy.

(** ** Options, repeated calls, prompts and buffers *)

Section Calls.

Lemma build_options_lookup (gen_conf : gmap string Q) :
  Ollama.build_options gen_conf !! "temperature" = gen_conf !! "temperature"
  /\ Ollama.build_options gen_conf !! "top_k" = gen_conf !! "top_p"
  /\ Ollama.build_options gen_conf !! "presence_penalty"
     = gen_conf !! "presence_penalty"
  /\ Ollama.build_options gen_conf !! "frequency_penalty"
     = gen_conf !! "frequency_penalty"
  /\ forall k,
       k ∉ ["temperature"; "top_k"; "presence_penalty"; "frequency_penalty"] ->
       Ollama.build_options gen_conf !! k = None.
Proof.
  unfold Ollama.build_options, Ollama.forward.
  destruct (gen_conf !! "frequency_penalty"), (gen_conf !! "presence_penalty"),
    (gen_conf !! "top_p"), (gen_conf !! "temperature");
    repeat split;
    try (intros k Hk; rewrite !not_elem_of_cons in Hk;
         destruct Hk as (? & ? & ? & ? & _));
    simplify_map_eq; reflexivity.
Qed.

(** X5. The request that [chat] and [chat_streamly] send to the chat
    endpoint names the model of the instance, carries the conversation as
    the call leaves it, asks to keep the model loaded ([keep_alive] -1),
    and has these options: of the caller's generation settings,
    [temperature], [presence_penalty] and [frequency_penalty] under their
    own names and the value of [top_p] under the name [top_k]; a setting
    that is absent is not given a default, and every other setting,
    [top_k] included, is dropped.  What the call returns, or yields, is
    made of the answer to that request. *)
Theorem chat_options_forwarding (net : Remote) (self : Instance) system history
    (gen_conf : gmap string Q) image rewritten :
  Ollama.apply_system system history = Returned rewritten ->
  exists sent_options : gmap string Q,
    fst (Ollama.chat net self system history gen_conf image)
      = Ollama.chat_result
          (chat_call net (client self)
             {| chat_model := model_name self;
                messages := snd (Ollama.chat net self system history gen_conf image);
                stream := false;
                options := sent_options;
                keep_alive := -1 |})
    /\ events (Ollama.chat_streamly net self system history gen_conf image)
       = Ollama.stream_events
           (chat_stream net (client self)
              {| chat_model := model_name self;
                 messages := history_after
                               (Ollama.chat_streamly net self system history
                                  gen_conf image);
                 stream := true;
                 options := sent_options;
                 keep_alive := -1 |})
         ++ [EvInt 0]
    /\ sent_options !! "temperature" = gen_conf !! "temperature"
    /\ sent_options !! "top_k" = gen_conf !! "top_p"
    /\ sent_options !! "presence_penalty" = gen_conf !! "presence_penalty"
    /\ sent_options !! "frequency_penalty" = gen_conf !! "frequency_penalty"
    /\ forall k,
         k ∉ ["temperature"; "top_k"; "presence_penalty"; "frequency_penalty"] ->
         sent_options !! k = None.
Proof.
  intros Hsys. exists (Ollama.build_options gen_conf).
  split; [|split; [|apply build_options_lookup]].
  - now rewrite (ollama_chat_unfold _ _ _ _ _ _ _ Hsys).
  - now rewrite (chat_streamly_events _ _ _ _ _ _ _ Hsys).
Qed.

Variables (net net' : Remote) (env : ModuleEnv) (self : Instance).

Local Abbreviation after_chat net system history gen_conf image :=
  (snd (Ollama.chat net self system history gen_conf image)).




(** X7. [OllamaCV.describe_with_prompt] never returns a description.  With
    a non-empty prompt it raises [TypeError] to the caller, because
    [vision_llm_prompt] takes one argument less than it is given; with no
    prompt, or an empty one, it returns the error pair.  The service is
    not called in either case. *)
Theorem OllamaCV_describe_with_prompt_never_succeeds image prompt :
  (truthy_opt prompt = true ->
     Ollama.describe_with_prompt net env self image prompt
       = Raised (mkExn TypeError
           "Base.vision_llm_prompt() takes 2 positional arguments but 3 were given"))
  /\ (truthy_opt prompt = false ->
      exists cause,
        Ollama.describe_with_prompt net env self image prompt
          = Returned (RPair ("**ERROR**: " +:+ cause) 0))
  /\ Ollama.describe_with_prompt net env self image prompt
     = Ollama.describe_with_prompt net' env self image prompt.
Proof.
  unfold Ollama.describe_with_prompt.
  destruct (generate_body_type_error net env self image) as (cause & _ & Hnet).
  destruct (generate_body_type_error net' env self image) as (cause' & _ & Hnet').
  destruct (message_text_type_error env self (AsStr "")) as [cause0 Hcause0].
  assert (Hsame :
    try_except (Ollama.generate_body net self
                  (Base.vision_llm_prompt env self (AsStr "")) image) Ollama.error_pair
    = try_except (Ollama.generate_body net' self
                    (Base.vision_llm_prompt env self (AsStr "")) image) Ollama.error_pair)
    by (unfold Ollama.generate_body; now rewrite Hcause0).
  destruct (truthy_opt prompt); (split; [|split]); try discriminate; try reflexivity.
  - intros _. now exists cause.
  - exact Hsame.
Qed.

(** X8. For [GptV4], [QWenCV] and [Zhipu4V] given raw bytes: the service
    receives one user message, made of the prompt and of the image as a
    [data:image/jpeg;base64,] URL whatever the format of the bytes, for the
    instance's model and at most 1000 tokens.  The answer is the stripped
    content of the first choice, the others being ignored; an answer
    without choices, or whose first content is null, becomes a sentinel
    text. *)
Theorem openai_style_describe data prompt choices :
  cls self ∈ [GptV4; QWenCV; Zhipu4V] ->
  completions_create net (client self)
    (mkCompletion (model_name self)
       [ mkMessage "user"
           [ TextPart (prompt_or env self prompt (AsBytes data));
             ImageUrlPart ("data:image/jpeg;base64," +:+ Base64.b64encode data) ] ]
       1000)
    = Returned choices ->
  fst (describe_with_prompt net env self (AsBytes data) prompt)
    = match choices with
      | Some text :: _ => Returned (RText (strip text))
      | None :: _ =>
          Returned (RText "**ERROR**: 'NoneType' object has no attribute 'strip'")
      | [] => Returned (RText "**ERROR**: list index out of range")
      end.
Proof.
  intros Hcls Hreply. unfold describe_with_prompt.
  assert (Hstyle :
    fst (Hosted.openai_style_describe_with_prompt net env self (AsBytes data) prompt)
    = match choices with
      | Some text :: _ => Returned (RText (strip text))
      | None :: _ =>
          Returned (RText "**ERROR**: 'NoneType' object has no attribute 'strip'")
      | [] => Returned (RText "**ERROR**: list index out of range")
      end).
  { unfold Hosted.openai_style_describe_with_prompt, Hosted.guarded,
      Hosted.openai_style_body, Hosted.image_url_messages, Base.image2base64.
    cbn [fst snd mbind outcome_bind Py.bind]. rewrite Hreply.
    destruct choices as [|[text|] rest]; reflexivity. }
  rewrite !elem_of_cons, elem_of_nil in Hcls.
  destruct Hcls as [-> | [-> | [-> | []]]]; exact Hstyle.
Qed.

(** X9. A hosted [describe_with_prompt] leaves a buffer with its bytes
    untouched and its read position at the end, and its result does not
    depend on where the position was: the buffer it has just read can be
    passed again. *)
Theorem hosted_describe_reuses_buffer b prompt prompt' :
  hosted (cls self) ->
  snd (describe_with_prompt net env self (AsBytesIO b) prompt)
    = AsBytesIO (mkBytesIO (buffer b) (length (buffer b)))
  /\ fst (describe_with_prompt net env self
            (snd (describe_with_prompt net env self (AsBytesIO b) prompt)) prompt')
     = fst (describe_with_prompt net env self (AsBytesIO b) prompt').
Proof.
  intros Hhosted. unfold describe_with_prompt.
  destruct (cls self); try (now destruct Hhosted); split; reflexivity.
Qed.

End Calls.


Lemma chat_streamly_anatomy_witness :
  Forall countable [mkResponse "a" true (Count 1) Missing; Sample.piece "b"]
  /\ texts_of (events (Ollama.chat_streamly
                         (Sample.scripted
                            (mkStream [mkResponse "a" true (Count 1) Missing;
                                       Sample.piece "b"] None))
                         Sample.ollama None [Sample.user_turn "hi"] ∅ (AsStr "")))
     = ["a"; "ab"]
  /\ ints_of (events (Ollama.chat_streamly
                        (Sample.scripted
                           (mkStream [mkResponse "a" true (Count 1) Missing;
                                      Sample.piece "b"] None))
                        Sample.ollama None [Sample.user_turn "hi"] ∅ (AsStr "")))
     = [1; 0].
Proof.
  assert (Hall : Forall countable
                   [mkResponse "a" true (Count 1) Missing; Sample.piece "b"])
    by (repeat constructor; intros Hdone; discriminate).
  split; [exact Hall|].
  exact (chat_streamly_anatomy
           (Sample.scripted
              (mkStream [mkResponse "a" true (Count 1) Missing; Sample.piece "b"] None))
           Sample.ollama None [Sample.user_turn "hi"] ∅ (AsStr "")
           [Sample.user_turn "hi"]
           [mkResponse "a" true (Count 1) Missing; Sample.piece "b"] None
           eq_refl eq_refl Hall).
Defined.

Lemma chat_streamly_texts_grow_witness :
  exists more, "Hel" +:+ nl +:+ "**ERROR**: Connection refused" = "Hel" +:+ more.
Proof.
  exact (chat_streamly_texts_grow (Sample.scripted Sample.broken_stream)
           Sample.ollama None [Sample.user_turn "hi"] ∅ (AsStr "")
           [Sample.user_turn "hi"] [Sample.piece "Hel"] (Some Sample.refused)
           0%nat "Hel" ("Hel" +:+ nl +:+ "**ERROR**: Connection refused")
           eq_refl eq_refl eq_refl eq_refl).
Defined.

Lemma chat_on_empty_conversation_witness :
  truthy_opt (Some "S") = true
  /\ Ollama.chat Sample.spy Sample.ollama (Some "S") [] ∅ (AsStr "")
     = (Raised (mkExn IndexError "list index out of range"), [])
  /\ Ollama.chat_streamly Sample.spy Sample.ollama (Some "S") [] ∅ (AsStr "")
     = mkRun [] (Some (mkExn IndexError "list index out of range")) [].
Proof.
  split; [reflexivity|].
  exact (conj
           (proj1 (chat_on_empty_conversation Sample.spy Sample.ollama (Some "S") []
                     ∅ (AsStr "") Sample.unreachable eq_refl eq_refl))
           (proj1 (proj2 (chat_on_empty_conversation Sample.spy Sample.ollama
                            (Some "S") [] ∅ (AsStr "") Sample.unreachable
                            eq_refl eq_refl)))).
Defined.

Lemma chat_usage_accounting_witness :
  fst (Ollama.chat Sample.spy Sample.ollama None [Sample.user_turn " hi "] ∅ (AsStr ""))
    = Returned (RPair "hi" 0).
Proof.
  exact (chat_usage_accounting Sample.spy Sample.ollama None
           [Sample.user_turn " hi "] ∅ (AsStr "") [Sample.user_turn " hi "]
           (Sample.spy_reply
              (Ollama.chat_request Sample.ollama
                 (Ollama.attach_images (AsStr "") [Sample.user_turn " hi "]) ∅ false))
           eq_refl eq_refl).
Defined.

Lemma chat_options_forwarding_witness :
  exists sent_options : gmap string Q,
    fst (Ollama.chat Sample.spy Sample.ollama None [Sample.user_turn "hi"]
           {[ "top_p" := 1%Q ]} (AsStr ""))
      = Ollama.chat_result
          (chat_call Sample.spy (client Sample.ollama)
             {| chat_model := "llava";
                messages := [mkTurn "user" "hi" (Some [AsStr ""])];
                stream := false;
                options := sent_options;
                keep_alive := -1 |})
    /\ sent_options !! "top_k" = Some 1%Q
    /\ sent_options !! "top_p" = None.
Proof.
  assert (Hk : "top_p" ∉ ["temperature"; "top_k"; "presence_penalty";
                          "frequency_penalty"])
    by (apply (bool_decide_eq_false_1 _); reflexivity).
  destruct (chat_options_forwarding Sample.spy Sample.ollama None
              [Sample.user_turn "hi"] {[ "top_p" := 1%Q ]} (AsStr "")
              [Sample.user_turn "hi"] eq_refl)
    as (sent_options & Hchat & _ & _ & Htop_k & _ & _ & Hother).
  exists sent_options. split; [exact Hchat|]. split; [exact Htop_k | exact (Hother _ Hk)].
Defined.

Lemma OllamaCV_describe_with_prompt_never_succeeds_witness :
  truthy_opt (Some "What is shown?") = true
  /\ Ollama.describe_with_prompt Sample.spy Sample.installed Sample.ollama
       (AsBytes Sample.jpeg) (Some "What is shown?")
     = Raised (mkExn TypeError
         "Base.vision_llm_prompt() takes 2 positional arguments but 3 were given").
Proof.
  split; [reflexivity|].
  exact (proj1 (OllamaCV_describe_with_prompt_never_succeeds Sample.spy Sample.spy
                  Sample.installed Sample.ollama (AsBytes Sample.jpeg)
                  (Some "What is shown?")) eq_refl).
Defined.

Lemma openai_style_describe_witness :
  (cls Sample.gpt ∈ [GptV4; QWenCV; Zhipu4V])
  /\ fst (describe_with_prompt (MoreSamples.answering [Some " A cat. "; Some "A dog."])
            Sample.installed Sample.gpt (AsBytes Sample.jpeg) None)
     = Returned (RText "A cat.").
Proof.
  assert (Hcls : cls Sample.gpt ∈ [GptV4; QWenCV; Zhipu4V])
    by apply list_elem_of_here.
  split; [exact Hcls|].
  exact (openai_style_describe (MoreSamples.answering [Some " A cat. "; Some "A dog."])
           Sample.installed Sample.gpt Sample.jpeg None
           [Some " A cat. "; Some "A dog."] Hcls eq_refl).
Defined.

Lemma hosted_describe_reuses_buffer_witness :
  hosted (cls Sample.gpt)
  /\ snd (describe_with_prompt Sample.unreachable Sample.installed Sample.gpt
            (AsBytesIO (mkBytesIO Sample.jpeg 2)) None)
     = AsBytesIO (mkBytesIO Sample.jpeg 6).
Proof.
  assert (Hhosted : hosted (cls Sample.gpt)) by discriminate.
  split; [exact Hhosted|].
  exact (proj1 (hosted_describe_reuses_buffer Sample.unreachable Sample.installed
                  Sample.gpt (mkBytesIO Sample.jpeg 2) None None Hhosted)).
Defined.

(** ** More on the factory *)

Section FactoryMore.

Import VisionModelFactory.

Lemma dict_get_insert_eq (d : gmap string string) k v dflt :
  dict_get (<[ k := v ]> d) k dflt = v.
Proof. unfold dict_get. now rewrite lookup_insert_eq. Qed.

Lemma dict_get_insert_ne (d : gmap string string) k k' v dflt :
  k <> k' -> dict_get (<[ k := v ]> d) k' dflt = dict_get d k' dflt.
Proof. intros Hne. unfold dict_get. now rewrite lookup_insert_ne. Qed.

Lemma dict_get_delete_eq (d : gmap string string) k dflt :
  dict_get (delete k d) k dflt = dflt.
Proof. unfold dict_get. now rewrite lookup_delete_eq. Qed.

Lemma dict_get_delete_ne (d : gmap string string) k k' dflt :
  k <> k' -> dict_get (delete k d) k' dflt = dict_get d k' dflt.
Proof. intros Hne. unfold dict_get. now rewrite lookup_delete_ne. Qed.

Variable env : ModuleEnv.

(** X10. For a configuration whose provider is registered, in any letter
    case: [create_model] raises [ImportError] when the client library of
    the class cannot be imported, raises what the constructor of the
    class's client raises for the configured API key when it refuses it,
    and succeeds otherwise.  The instance has the registered class, the
    configured model name or, if that is empty or missing, the default of
    the class (none for [OllamaCV]), the configured language or
    [Chinese], and the API key as [key], except for [OllamaCV], which
    keeps none. *)
Theorem create_model_registered config c :
  provider_class (str_lower env (dict_get config "provider" "openai")) = Some c ->
  if importable env c
  then match refusal env c (dict_get config "api_key" "") with
       | Some e => create_model env config = Raised e
       | None =>
           exists inst,
             create_model env config = Returned inst
             /\ cls inst = c
             /\ model_name inst
                = (if truthy (dict_get config "model_name" "")
                   then dict_get config "model_name" ""
                   else default "" (signature_default c))
             /\ lang inst = dict_get config "lang" "Chinese"
             /\ key inst = (if decide (c = OllamaCV) then None
                            else Some (dict_get config "api_key" ""))
       end
  else exists e, create_model env config = Raised e /\ exn_class e = ImportError.
Proof. apply create_model_cases. Qed.

(** X11. Provider identifiers are read without regard to letter case, in
    a mapping and as a bare string; a bare string that names a provider is
    never looked up as a file, whatever the file system holds. *)
Theorem provider_is_case_insensitive (host : Host) config p :
  create_model env (<[ "provider" := p ]> config)
    = create_model env (<[ "provider" := str_lower env p ]> config)
  /\ (str_lower env p ∈ provider_keys ->
      create_vision_model env host (ConfigStr p)
        = create_model env {[ "provider" := str_lower env p ]}
      /\ create_vision_model env host (ConfigStr p)
         = create_vision_model env host (ConfigStr (str_lower env p))).
Proof.
  split.
  - unfold create_model, dict_get. simplify_map_eq. cbn [default].
    now rewrite str_lower_idempotent.
  - intros Hreg. unfold create_vision_model.
    rewrite str_lower_idempotent, !(bool_decide_eq_true_2 _ Hreg). now split.
Qed.

(** X12. The configured [base_url] reaches the Ollama client only: for
    the five hosted providers the instance is the same with and without
    it, whereas the Ollama client is built for it, or for
    [http://localhost:11434] when it is empty. *)
Theorem base_url_reaches_only_ollama config c u :
  provider_class (str_lower env (dict_get config "provider" "openai")) = Some c ->
  (c <> OllamaCV ->
     create_model env (<[ "base_url" := u ]> config)
       = create_model env (delete "base_url" config))
  /\ (c = OllamaCV ->
      OLLAMA_AVAILABLE env = true ->
      exists inst,
        create_model env (<[ "base_url" := u ]> config) = Returned inst
        /\ client inst
           = OllamaClient (if truthy u then u else "http://localhost:11434")).
Proof.
  intros Hclass. unfold create_model.
  rewrite dict_get_insert_eq, dict_get_delete_eq.
  rewrite !dict_get_insert_ne, !dict_get_delete_ne by discriminate.
  rewrite Hclass. split.
  - intros Hhosted.
    destruct c; try contradiction; cbn [construct];
      destruct (truthy u); cbn [truthy String.eqb negb];
      rewrite ?dict_get_insert_ne by discriminate; reflexivity.
  - intros -> Havailable. cbn [construct]. rewrite Havailable.
    eexists. split; [reflexivity|]. cbn [client].
    destruct (truthy u) eqn:Hu; [now rewrite dict_get_insert_eq | reflexivity].
Qed.

(** The two steps of [create_from_config_file], and what its handler makes
    of their failures. *)
Lemma create_from_config_file_cases (host : Host) config_file :
  match create_from_config_file env host config_file with
  | Returned inst =>
      exists vision_config,
        load_vision_config host config_file = Returned vision_config
        /\ create_model env vision_config = Returned inst
  | Raised e =>
      exn_class e = ValueError
      /\ exists cause,
           exn_msg e = "Failed to load config from " +:+ config_file
                       +:+ ": " +:+ str cause
           /\ (load_vision_config host config_file = Raised cause
               \/ exists vision_config,
                    load_vision_config host config_file = Returned vision_config
                    /\ create_model env vision_config = Raised cause)
  end.
Proof.
  unfold create_from_config_file.
  destruct (load_vision_config host config_file) as [vision_config|cause] eqn:Hload;
    cbn [mbind outcome_bind Py.bind try_except].
  - destruct (create_model env vision_config) as [inst|cause] eqn:Hcreate;
      cbn [try_except].
    + now exists vision_config.
    + split; [reflexivity|]. exists cause. split; [reflexivity|].
      right. now exists vision_config.
  - split; [reflexivity|]. exists cause. split; [reflexivity | now left].
Qed.

(** X13. [create_from_config_file] raises nothing but [ValueError]: a file
    that cannot be loaded, an unregistered provider and a client library
    that cannot be imported are all reported with the message
    [Failed to load config from <file>: <cause>]; when it returns, it
    returns what [create_model] makes of the file's section. *)
Theorem config_file_errors_are_wrapped (host : Host) config_file :
  match create_from_config_file env host config_file with
  | Returned inst =>
      exists vision_config,
        load_vision_config host config_file = Returned vision_config
        /\ create_model env vision_config = Returned inst
  | Raised e =>
      exn_class e = ValueError
      /\ exists cause,
           exn_msg e = "Failed to load config from " +:+ config_file
                       +:+ ": " +:+ str cause
           /\ (load_vision_config host config_file = Raised cause
               \/ exists vision_config,
                    load_vision_config host config_file = Returned vision_config
                    /\ create_model env vision_config = Raised cause)
  end.
Proof. apply create_from_config_file_cases. Qed.

(** X14. For a bare string that names no provider, [create_vision_model]
    returns what loading it as a configuration file returns.  When loading
    fails the cause is kept if the string ends in [.yaml], [.yml] or
    [.json], and is otherwise replaced by the message that lists the
    providers. *)
Theorem string_config_resolution (host : Host) s :
  str_lower env s ∉ provider_keys ->
  match create_vision_model env host (ConfigStr s) with
  | Returned inst => create_from_config_file env host s = Returned inst
  | Raised e =>
      exn_class e = ValueError
      /\ exists cause,
           create_from_config_file env host s = Raised cause
           /\ if (endswith s ".yaml" || endswith s ".yml" || endswith s ".json")%bool
              then e = cause
              else exn_msg e
                   = "无效的配置: " +:+ s +:+ "。支持的提供商: "
                     +:+ "['openai', 'qwen', 'zhipu', 'ollama', 'gemini', 'anthropic']"
  end.
Proof.
  intros Hunknown. unfold create_vision_model.
  rewrite (bool_decide_eq_false_2 _ Hunknown).
  pose proof (create_from_config_file_cases host s) as Hfile.
  destruct (endswith s ".yaml" || endswith s ".yml" || endswith s ".json")%bool;
    destruct (create_from_config_file env host s) as [inst|cause];
    cbn [try_except]; try reflexivity.
  - split; [apply Hfile|]. now exists cause.
  - split; [reflexivity|]. now exists cause.
Qed.

(** X15. Without a configuration the environment decides.  With
    [DEEPDOC_VISION_PROVIDER] unset the provider is [openai]: the client
    is built for the key in [DEEPDOC_VISION_API_KEY], or the empty key,
    and what its constructor raises is raised; otherwise the model is
    [DEEPDOC_VISION_MODEL] or, if that is unset or empty,
    [gpt-4-vision-preview].  With the provider variable set to the empty
    string there is no fall-back: the call fails with [ValueError]. *)
Theorem create_from_env_provider (host : Host) :
  create_vision_model env host NoConfig = create_from_env env host
  /\ (getenv host "DEEPDOC_VISION_PROVIDER" = None ->
      match client_init env
              (OpenAI (default "" (getenv host "DEEPDOC_VISION_API_KEY")) None) with
      | Some e => create_from_env env host = Raised e
      | None =>
          exists inst,
            create_from_env env host = Returned inst
            /\ cls inst = GptV4
            /\ model_name inst
               = (if truthy (default "" (getenv host "DEEPDOC_VISION_MODEL"))
                  then default "" (getenv host "DEEPDOC_VISION_MODEL")
                  else "gpt-4-vision-preview")
            /\ key inst = Some (default "" (getenv host "DEEPDOC_VISION_API_KEY"))
            /\ lang inst = default "Chinese" (getenv host "DEEPDOC_VISION_LANG")
      end)
  /\ (getenv host "DEEPDOC_VISION_PROVIDER" = Some "" ->
      create_from_env env host = Raised (mkExn ValueError "不支持的提供商: ")).
Proof.
  split; [reflexivity|]. split.
  - intros Hunset.
    pose proof (create_model_cases env
                  (<["provider" := default "openai" (getenv host "DEEPDOC_VISION_PROVIDER")]>
                   (<["model_name" := default "" (getenv host "DEEPDOC_VISION_MODEL")]>
                    (<["api_key" := default "" (getenv host "DEEPDOC_VISION_API_KEY")]>
                     (<["lang" := default "Chinese" (getenv host "DEEPDOC_VISION_LANG")]>
                      (<["base_url" := default "" (getenv host "DEEPDOC_VISION_BASE_URL")]>
                       ∅))))) GptV4) as Hmodel.
    unfold dict_get in Hmodel. simplify_map_eq. cbn [default] in Hmodel.
    rewrite (str_lower_ascii env "openai" eq_refl) in Hmodel.
    specialize (Hmodel eq_refl).
    cbn [importable refusal sdk_client mbind option_bind] in Hmodel.
    unfold create_from_env. rewrite Hunset. cbn [default].
    destruct (client_init env _) as [e|]; [exact Hmodel|].
    destruct Hmodel as (inst & Hcreate & Hcls & Hname & Hlang & Hkey).
    exists inst. repeat split; assumption.
  - intros Hempty. unfold create_from_env, create_model, dict_get.
    rewrite Hempty. simplify_map_eq. cbn [default].
    rewrite (str_lower_ascii env "" eq_refl). reflexivity.
Qed.

End FactoryMore.

(** ** nltk_manager.py *)

Section Nltk.

Import NltkManager.

Context {W : Type}.
Implicit Types (nltk : Nltk W) (st : State) (w : W).


(** What a call that misses the cache does to the state. *)
Lemma ensure_miss nltk rp dn st w :
  cache st !! (rp, dn) = None ->
  ensure_nltk_resource nltk rp dn st w =
    let '(answer, downloaded, w') :=
      ensure_body nltk rp dn (_downloaded_resources st) w in
    (answer, mkState (<[ (rp, dn) := answer ]> (cache st)) downloaded, w').
Proof. intros Hmiss. unfold ensure_nltk_resource. now rewrite Hmiss. Qed.

(** The body downloads only a name it has not tried, records every name it
    tries, and answers [false] only for a recorded name. *)
Lemma ensure_body_cases nltk rp dn downloaded w answer downloaded' w' :
  ensure_body nltk rp dn downloaded w = (answer, downloaded', w') ->
  (downloaded' = downloaded /\ w' = w
   /\ answer = find nltk w rp
   /\ (answer = false -> dn ∈ downloaded))
  \/ ((dn ∉ downloaded) /\ find nltk w rp = false
      /\ downloaded' = {[ dn ]} ∪ downloaded
      /\ w' = snd (download nltk w dn)
      /\ answer = match fst (download nltk w dn) with
                  | Returned success => success
                  | Raised _ => false
                  end).
Proof.
  unfold ensure_body. destruct (find nltk w rp) eqn:Hfind.
  - intros [= <- <- <-]. left. repeat split; intros; discriminate.
  - destruct (bool_decide (dn ∈ downloaded)) eqn:Hdn.
    + intros [= <- <- <-]. left. repeat split.
      intros _. now rewrite bool_decide_eq_true in Hdn.
    + rewrite bool_decide_eq_false in Hdn.
      destruct (download nltk w dn) as [[success|e] w1]; cbn [fst snd];
        intros [= <- <- <-]; right; repeat split; assumption.
Qed.


(** X17. A call keeps the state coherent, forgets nothing (names tried and
    cached answers stay), and a negative answer is always for a name that
    is recorded as tried. *)
Theorem ensure_keeps_coherent nltk rp dn st w answer st' w' :
  coherent st ->
  ensure_nltk_resource nltk rp dn st w = (answer, st', w') ->
  coherent st'
  /\ _downloaded_resources st ⊆ _downloaded_resources st'
  /\ (forall k v, cache st !! k = Some v -> cache st' !! k = Some v)
  /\ (answer = false -> dn ∈ _downloaded_resources st').
Proof.
  intros Hcoh Hcall. unfold ensure_nltk_resource in Hcall.
  destruct (cache st !! (rp, dn)) as [cached|] eqn:Hcache.
  - injection Hcall as <- <- <-. repeat split; try done.
    intros ->. now apply (Hcoh rp dn).
  - destruct (ensure_body nltk rp dn (_downloaded_resources st) w)
      as [[a d] w1] eqn:Hbody.
    injection Hcall as <- <- <-. cbn [cache _downloaded_resources].
    assert (Hgrow : _downloaded_resources st ⊆ d /\ (a = false -> dn ∈ d)).
    { destruct (ensure_body_cases _ _ _ _ _ _ _ _ Hbody)
        as [(-> & _ & _ & Hfalse) | (Hnew & _ & -> & _ & _)].
      - split; [done | exact Hfalse].
      - split; [set_solver | intros _; set_solver]. }
    destruct Hgrow as [Hsub Hfalse]. repeat split; try assumption.
    + intros rp0 dn0 Hneg. cbn [cache _downloaded_resources] in *.
      destruct (decide ((rp, dn) = (rp0, dn0))) as [[= <- <-]|Hne].
      * rewrite lookup_insert_eq in Hneg. injection Hneg as ->. now apply Hfalse.
      * rewrite lookup_insert_ne in Hneg by exact Hne.
        apply Hsub. now apply (Hcoh rp0 dn0).
    + intros k v Hk. destruct (decide ((rp, dn) = k)) as [<-|Hne].
      * congruence.
      * now rewrite lookup_insert_ne.
Qed.

Lemma recording_body (nltk : Nltk W) rp dn downloaded w log :
  ensure_body (recording nltk) rp dn downloaded (w, log) =
    let '(answer, downloaded', w') := ensure_body nltk rp dn downloaded w in
    (answer, downloaded',
     (w', if (find nltk w rp || bool_decide (dn ∈ downloaded))%bool
          then log else log ++ [dn])).
Proof.
  unfold ensure_body. cbn [recording find download fst snd].
  destruct (find nltk w rp); [reflexivity|].
  destruct (bool_decide (dn ∈ downloaded)); [reflexivity|].
  now destruct (download nltk w dn) as [[success|e] w1].
Qed.

Lemma ensure_keeps_recorded (nltk : Nltk W) rp dn st w log answer st' w' log' :
  recorded st log ->
  ensure_nltk_resource (recording nltk) rp dn st (w, log) = (answer, st', (w', log')) ->
  recorded st' log'.
Proof.
  intros [Hnodup Hin] Hcall. unfold ensure_nltk_resource in Hcall.
  destruct (cache st !! (rp, dn)) as [cached|].
  - injection Hcall as <- <- <- <-. now split.
  - rewrite recording_body in Hcall. unfold ensure_body in Hcall.
    destruct (find nltk w rp); cbn [orb] in Hcall.
    + injection Hcall as <- <- <- <-. now split.
    + destruct (bool_decide (dn ∈ _downloaded_resources st)) eqn:Hdn.
      * injection Hcall as <- <- <- <-. now split.
      * rewrite bool_decide_eq_false in Hdn.
        assert (dn ∉ log) by (intros Hlog; apply Hdn, Hin, Hlog).
        destruct (download nltk w dn) as [[success|e] w1];
          injection Hcall as <- <- <- <-; cbn [_downloaded_resources];
          (split;
           [ apply NoDup_app; repeat split;
               [ assumption
               | intros x Hx Hx'; apply list_elem_of_singleton in Hx'; now subst
               | apply NoDup_singleton ]
           | intros name Hname; apply elem_of_app in Hname as [Hname|Hname];
               [ apply Hin in Hname; set_solver
               | apply list_elem_of_singleton in Hname; set_solver ] ]).
Qed.

(** X18. However often a name is listed, under however many resource
    paths and across however many decorated calls, [nltk.download] is
    called at most once for it: the log of downloads never holds a name
    twice. *)
Theorem each_name_is_downloaded_once (nltk : Nltk W) resources st w log
    missing st' w' log' :
  recorded st log ->
  collect_missing (recording nltk) resources st (w, log) = (missing, st', (w', log')) ->
  recorded st' log'.
Proof.
  revert st w log missing st' w' log'.
  induction resources as [|[rp dn] rest IH];
    intros st w log missing st' w' log' Hrec Hrun.
  - now injection Hrun as <- <- <- <-.
  - cbn [collect_missing] in Hrun.
    destruct (ensure_nltk_resource (recording nltk) rp dn st (w, log))
      as [[ok st1] [w1 log1]] eqn:Hcall.
    destruct (collect_missing (recording nltk) rest st1 (w1, log1))
      as [[missing2 st2] [w2 log2]] eqn:Hrest.
    injection Hrun as <- <- <- <-.
    eapply IH; [|exact Hrest]. eapply ensure_keeps_recorded; eassumption.
Qed.




End Nltk.

(** ** prompts.py and parser/utils.py *)

Section Files.

(** X20. [load_prompt] reads a file at most once per name: after a
    successful load every later call returns the same text without
    consulting the files, which may have changed or gone.  A failed load
    leaves no trace: once the file exists, the next call loads it,
    stripped of surrounding white space. *)
Theorem load_prompt_is_sticky PROMPT_DIR files name loaded :
  match Prompts.load_prompt PROMPT_DIR files name loaded with
  | (Done content, loaded') =>
      forall files',
        Prompts.load_prompt PROMPT_DIR files' name loaded' = (Done content, loaded')
  | (Failed e, loaded') =>
      loaded' = loaded
      /\ forall text,
           Prompts.load_prompt PROMPT_DIR
             (<[ Prompts.path_join PROMPT_DIR (name +:+ ".md") := text ]> files)
             name loaded'
           = (Done (strip text), <[ name := strip text ]> loaded)
  end.
Proof.
  unfold Prompts.load_prompt at 1.
  destruct (loaded !! name) as [content|] eqn:Hloaded.
  - intros files'. unfold Prompts.load_prompt. now rewrite Hloaded.
  - destruct (files !! Prompts.path_join PROMPT_DIR (name +:+ ".md")) as [text|].
    + intros files'. unfold Prompts.load_prompt. now rewrite lookup_insert_eq.
    + split; [reflexivity|]. intros text. unfold Prompts.load_prompt.
      now rewrite Hloaded, lookup_insert_eq.
Qed.

(** X21. [get_text] treats empty bytes like no bytes at all: it then reads
    the file, and fails if there is none.  Given bytes that are not empty
    it never touches the file: the name may be anything. *)
Theorem get_text_empty_bytes codecs files fnm :
  ParserUtils.get_text codecs files fnm (Some [])
    = ParserUtils.get_text codecs files fnm None
  /\ (files !! fnm = None ->
      ParserUtils.get_text codecs files fnm (Some [])
        = Failed (FileNotFoundError
                    ("[Errno 2] No such file or directory: '" +:+ fnm +:+ "'")))
  /\ (forall binary files' fnm',
        ParserUtils.falsy (Some binary) = false ->
        ParserUtils.get_text codecs files fnm (Some binary)
          = ParserUtils.get_text codecs files' fnm' (Some binary)).
Proof.
  split; [reflexivity|]. split.
  - intros Hmissing. unfold ParserUtils.get_text. now rewrite Hmissing.
  - intros [|b rest] files' fnm' Hfull; [discriminate Hfull | reflexivity].
Qed.

End Files.

(** ** The payload of [image2base64] *)

Section Payload.

Import Base64.

Lemma length_append (a b : string) :
  String.length (a +:+ b) = (String.length a + String.length b)%nat.
Proof.
  induction a as [|c a IH]; [reflexivity|].
  rewrite append_cons. cbn [String.length]. now rewrite IH.
Qed.

Lemma all_chars_append p (a b : string) :
  all_chars p (a +:+ b) = (all_chars p a && all_chars p b)%bool.
Proof.
  induction a as [|c a IH]; [reflexivity|].
  rewrite append_cons. cbn [all_chars]. now rewrite IH, andb_assoc.
Qed.

Lemma digit_is_base64 (i : N) : base64_char (digit i) = true.
Proof.
  unfold digit. generalize (N.to_nat i). intros n.
  do 64 (destruct n as [|n]; [reflexivity|]). reflexivity.
Qed.

Lemma group_shape (n : N) (pad : nat) :
  String.length (group n pad) = 4%nat /\ all_chars base64_char (group n pad) = true.
Proof.
  split; [reflexivity|]. unfold group. cbn [all_chars].
  rewrite !digit_is_base64.
  destruct (Nat.leb 2 pad), (Nat.leb 1 pad); rewrite ?digit_is_base64; reflexivity.
Qed.

(** Lists are taken apart three elements at a time. *)
Lemma list_ind_by_three {A} (P : list A -> Prop) :
  P [] -> (forall a, P [a]) -> (forall a b, P [a; b]) ->
  (forall a b c l, P l -> P (a :: b :: c :: l)) ->
  forall l, P l.
Proof.
  intros H0 H1 H2 H3 l.
  assert (Hall : P l /\ (forall a, P (a :: l)) /\ (forall a b, P (a :: b :: l))).
  { induction l as [|x l (IHl & IHl1 & IHl2)]; [now repeat split|].
    split; [apply IHl1|]. split; [intros a; apply IHl2|].
    intros a b. apply H3, IHl. }
  apply Hall.
Qed.

(** X22. The payload that [image2base64] makes of [n] bytes is base64
    text: it has [4 * ceil(n / 3)] characters, each a digit of the base64
    alphabet or the padding sign. *)
Theorem image2base64_payload_shape (data : list byte) :
  exists payload,
    fst (Base.image2base64 (AsBytes data)) = Returned payload
    /\ String.length payload = (4 * ((length data + 2) / 3))%nat
    /\ all_chars base64_char payload = true.
Proof.
  exists (b64encode data). split; [reflexivity|].
  revert data. apply list_ind_by_three.
  - split; reflexivity.
  - intros a. split; [reflexivity | apply group_shape].
  - intros a b. split; [reflexivity | apply group_shape].
  - intros a b c rest [IHlen IHchars].
    change (b64encode (a :: b :: c :: rest))
      with (group (N.lor (N.lor (N.shiftl (Byte.to_N a) 16)
                            (N.shiftl (Byte.to_N b) 8)) (Byte.to_N c)) 0
            +:+ b64encode rest).
    rewrite length_append, all_chars_append, IHlen, IHchars.
    destruct (group_shape (N.lor (N.lor (N.shiftl (Byte.to_N a) 16)
                                    (N.shiftl (Byte.to_N b) 8)) (Byte.to_N c)) 0)
      as [-> ->].
    split; [|reflexivity]. cbn [length].
    replace (S (S (S (length rest))) + 2)%nat
      with ((length rest + 2) + 1 * 3)%nat by lia.
    rewrite Nat.div_add by discriminate. lia.
Qed.

End Payload.

Section PayloadInjective.

Import Base64.
Local Open Scope N_scope.

Local Ltac euclid := zify; Z.to_euclidean_division_equations; lia.

Lemma lor_low_bits (y x k : N) : x < 2 ^ k -> N.lor (y * 2 ^ k) x = y * 2 ^ k + x.
Proof.
  intros Hx.
  assert (Hdisjoint : N.land (y * 2 ^ k) x = 0).
  { rewrite <- (N.mod_small x (2 ^ k)) by exact Hx.
    rewrite <- (N.land_ones x k), (N.land_comm x), N.land_assoc,
      (N.land_ones (y * 2 ^ k)).
    rewrite N.Div0.mod_mul. apply N.land_0_l. }
  now rewrite <- N.lxor_lor, <- N.add_nocarry_lxor.
Qed.

Local Ltac powers := change (2 ^ 16) with 65536 in *; change (2 ^ 8) with 256 in *; lia.

(** The 24-bit number of three bytes, in arithmetic. *)
Lemma group_number (a b c : byte) :
  N.lor (N.lor (N.shiftl (Byte.to_N a) 16) (N.shiftl (Byte.to_N b) 8)) (Byte.to_N c)
    = Byte.to_N a * 65536 + Byte.to_N b * 256 + Byte.to_N c.
Proof.
  pose proof (Byte.to_N_bounded b). pose proof (Byte.to_N_bounded c).
  rewrite !N.shiftl_mul_pow2.
  rewrite (lor_low_bits (Byte.to_N a) (Byte.to_N b * 2 ^ 8) 16) by powers.
  replace (Byte.to_N a * 2 ^ 16 + Byte.to_N b * 2 ^ 8)
    with ((Byte.to_N a * 256 + Byte.to_N b) * 2 ^ 8) by powers.
  rewrite lor_low_bits by powers. powers.
Qed.

Lemma pair_number (a b : byte) :
  N.lor (N.shiftl (Byte.to_N a) 16) (N.shiftl (Byte.to_N b) 8)
    = Byte.to_N a * 65536 + Byte.to_N b * 256.
Proof.
  pose proof (Byte.to_N_bounded b).
  rewrite !N.shiftl_mul_pow2.
  rewrite (lor_low_bits (Byte.to_N a) (Byte.to_N b * 2 ^ 8) 16) by powers.
  powers.
Qed.

Lemma single_number (a : byte) : N.shiftl (Byte.to_N a) 16 = Byte.to_N a * 65536.
Proof. now rewrite N.shiftl_mul_pow2. Qed.

(** The digits of a group, in arithmetic. *)
Lemma group_digits (n : N) (pad : nat) :
  group n pad =
    String (digit (n / 262144))
      (String (digit ((n / 4096) mod 64))
         (String (if Nat.leb 2 pad then "="%char else digit ((n / 64) mod 64))
            (String (if Nat.leb 1 pad then "="%char else digit (n mod 64))
               EmptyString))).
Proof.
  unfold group. change 63 with (N.ones 6).
  now rewrite !N.land_ones, !N.shiftr_div_pow2.
Qed.

Lemma digit_injective (i j : N) : i < 64 -> j < 64 -> digit i = digit j -> i = j.
Proof.
  intros Hi Hj Hdigit.
  assert (Htable :
    forallb (fun x => forallb (fun y =>
      implb (Ascii.eqb (digit (N.of_nat x)) (digit (N.of_nat y))) (Nat.eqb x y))
      (seq 0 64)) (seq 0 64) = true) by (vm_compute; reflexivity).
  rewrite forallb_forall in Htable.
  specialize (Htable (N.to_nat i)). rewrite forallb_forall in Htable.
  specialize (Htable ltac:(apply in_seq; lia) (N.to_nat j) ltac:(apply in_seq; lia)).
  rewrite !N2Nat.id, Hdigit, Ascii.eqb_refl in Htable. cbn [implb] in Htable.
  apply Nat.eqb_eq in Htable. lia.
Qed.

Lemma digit_is_not_padding (i : N) : i < 64 -> digit i <> "="%char.
Proof.
  intros Hi Hpad.
  assert (Htable :
    forallb (fun x => negb (Ascii.eqb (digit (N.of_nat x)) "=")) (seq 0 64) = true)
    by (vm_compute; reflexivity).
  rewrite forallb_forall in Htable.
  specialize (Htable (N.to_nat i) ltac:(apply in_seq; lia)).
  rewrite N2Nat.id, Hpad in Htable. discriminate Htable.
Qed.

Lemma to_N_injective (a b : byte) : Byte.to_N a = Byte.to_N b -> a = b.
Proof.
  intros Heq. pose proof (Byte.of_to_N a) as Ha.
  rewrite Heq, Byte.of_to_N in Ha. now injection Ha.
Qed.

(** A number below [2^24] is determined by its four digits. *)
Lemma fields_injective (n m : N) :
  n < 16777216 -> m < 16777216 ->
  digit (n / 262144) = digit (m / 262144) ->
  digit ((n / 4096) mod 64) = digit ((m / 4096) mod 64) ->
  digit ((n / 64) mod 64) = digit ((m / 64) mod 64) ->
  digit (n mod 64) = digit (m mod 64) ->
  n = m.
Proof.
  intros Hn Hm H0 H1 H2 H3.
  apply digit_injective in H0; [|euclid|euclid].
  apply digit_injective in H1; [|euclid|euclid].
  apply digit_injective in H2; [|euclid|euclid].
  apply digit_injective in H3; [|euclid|euclid].
  euclid.
Qed.

Lemma b64encode_three (a b c : byte) (rest : list byte) :
  b64encode (a :: b :: c :: rest) =
    String (digit ((Byte.to_N a * 65536 + Byte.to_N b * 256 + Byte.to_N c) / 262144))
   (String (digit (((Byte.to_N a * 65536 + Byte.to_N b * 256 + Byte.to_N c) / 4096)
                   mod 64))
   (String (digit (((Byte.to_N a * 65536 + Byte.to_N b * 256 + Byte.to_N c) / 64)
                   mod 64))
   (String (digit ((Byte.to_N a * 65536 + Byte.to_N b * 256 + Byte.to_N c) mod 64))
      (b64encode rest)))).
Proof.
  change (b64encode (a :: b :: c :: rest))
    with (group (N.lor (N.lor (N.shiftl (Byte.to_N a) 16) (N.shiftl (Byte.to_N b) 8))
                   (Byte.to_N c)) 0 +:+ b64encode rest).
  now rewrite group_digits, group_number.
Qed.

Lemma b64encode_two (a b : byte) :
  b64encode [a; b] =
    String (digit ((Byte.to_N a * 65536 + Byte.to_N b * 256) / 262144))
   (String (digit (((Byte.to_N a * 65536 + Byte.to_N b * 256) / 4096) mod 64))
   (String (digit (((Byte.to_N a * 65536 + Byte.to_N b * 256) / 64) mod 64))
   (String "=" EmptyString))).
Proof.
  change (b64encode [a; b])
    with (group (N.lor (N.shiftl (Byte.to_N a) 16) (N.shiftl (Byte.to_N b) 8)) 1).
  now rewrite group_digits, pair_number.
Qed.

Lemma b64encode_one (a : byte) :
  b64encode [a] =
    String (digit ((Byte.to_N a * 65536) / 262144))
   (String (digit (((Byte.to_N a * 65536) / 4096) mod 64))
   (String "=" (String "=" EmptyString))).
Proof.
  change (b64encode [a]) with (group (N.shiftl (Byte.to_N a) 16) 2).
  now rewrite group_digits, single_number.
Qed.

Local Ltac bounds :=
  repeat match goal with
         | x : byte |- _ =>
             lazymatch goal with
             | _ : Byte.to_N x <= 255 |- _ => fail
             | _ => pose proof (Byte.to_N_bounded x)
             end
         end.

Local Ltac padding_clash :=
  match goal with
  | H : digit ?i = "="%char |- _ =>
      exfalso; apply (digit_is_not_padding i); [euclid | exact H]
  | H : "="%char = digit ?i |- _ =>
      exfalso; apply (digit_is_not_padding i); [euclid | symmetry; exact H]
  end.

Lemma b64encode_injective (data1 data2 : list byte) :
  b64encode data1 = b64encode data2 -> data1 = data2.
Proof.
  revert data2. induction data1 as [| a | a b | a b c rest IH]
    using list_ind_by_three;
    intros [|a' [|b' [|c' rest']]];
    rewrite ?b64encode_one, ?b64encode_two, ?b64encode_three;
    intros Heq; try reflexivity; try discriminate Heq; bounds.
  - injection Heq as E0 E1.
    assert (Byte.to_N a * 65536 = Byte.to_N a' * 65536) as Hn.
    { apply fields_injective; try lia; try assumption; f_equal; euclid. }
    f_equal. apply to_N_injective. lia.
  - injection Heq as E0 E1 E2. padding_clash.
  - injection Heq as E0 E1 E2 E3. padding_clash.
  - injection Heq as E0 E1 E2. padding_clash.
  - injection Heq as E0 E1 E2.
    assert (Byte.to_N a * 65536 + Byte.to_N b * 256
            = Byte.to_N a' * 65536 + Byte.to_N b' * 256) as Hn.
    { apply fields_injective; try lia; try assumption; f_equal; euclid. }
    assert (Byte.to_N a = Byte.to_N a' /\ Byte.to_N b = Byte.to_N b')
      as [Ha Hb] by lia.
    apply to_N_injective in Ha, Hb. now subst.
  - injection Heq as E0 E1 E2 E3. padding_clash.
  - injection Heq as E0 E1 E2 E3. padding_clash.
  - injection Heq as E0 E1 E2 E3. padding_clash.
  - injection Heq as E0 E1 E2 E3 Erest.
    assert (Byte.to_N a * 65536 + Byte.to_N b * 256 + Byte.to_N c
            = Byte.to_N a' * 65536 + Byte.to_N b' * 256 + Byte.to_N c') as Hn.
    { apply fields_injective; try lia; assumption. }
    assert (Byte.to_N a = Byte.to_N a' /\ Byte.to_N b = Byte.to_N b'
            /\ Byte.to_N c = Byte.to_N c') as (Ha & Hb & Hc) by lia.
    apply to_N_injective in Ha, Hb, Hc. subst. f_equal. f_equal. f_equal.
    now apply IH.
Qed.

(** X23. [image2base64] loses nothing: two images, buffers or raw bytes,
    that get the same payload hold the same bytes. *)
Theorem image2base64_is_injective image1 image2 data1 data2 :
  image_bytes image1 = Some data1 ->
  image_bytes image2 = Some data2 ->
  fst (Base.image2base64 image1) = fst (Base.image2base64 image2) ->
  data1 = data2.
Proof.
  intros H1 H2 Hpayload. apply b64encode_injective.
  destruct image1 as [b1|raw1|img1|s1]; try discriminate H1;
    destruct image2 as [b2|raw2|img2|s2]; try discriminate H2;
    injection H1 as <-; injection H2 as <-;
    unfold Base.image2base64, read, seek in Hpayload;
    cbn [fst snd buffer position] in Hpayload; rewrite ?drop_0 in Hpayload;
    now injection Hpayload.
Qed.

End PayloadInjective.

(** ** The properties above on concrete inputs *)

Lemma create_model_registered_witness :
  VisionModelFactory.provider_class
    (str_lower Sample.keyed (dict_get MoreSamples.local_llava "provider" "openai"))
    = Some OllamaCV
  /\ VisionModelFactory.provider_class
       (str_lower Sample.keyed (dict_get MoreSamples.keyless_qwen "provider" "openai"))
     = Some QWenCV
  /\ (exists inst,
        VisionModelFactory.create_model Sample.keyed MoreSamples.local_llava
          = Returned inst
        /\ cls inst = OllamaCV
        /\ model_name inst = "llava"
        /\ key inst = None)
  /\ VisionModelFactory.create_model Sample.keyed MoreSamples.keyless_qwen
     = Raised Sample.key_required.
Proof.
  split; [reflexivity|]. split; [reflexivity|]. split.
  - destruct (create_model_registered Sample.keyed MoreSamples.local_llava
                OllamaCV eq_refl) as (inst & Hcreate & Hcls & Hname & _ & Hkey).
    exists inst. repeat split; assumption.
  - exact (create_model_registered Sample.keyed MoreSamples.keyless_qwen
             QWenCV eq_refl).
Defined.

Lemma provider_is_case_insensitive_witness :
  (str_lower Sample.installed "QWEN" ∈ VisionModelFactory.provider_keys)
  /\ create_vision_model Sample.installed Sample.nowhere (ConfigStr "QWEN")
     = VisionModelFactory.create_model Sample.installed {[ "provider" := "qwen" ]}.
Proof.
  assert (Hreg : str_lower Sample.installed "QWEN" ∈ VisionModelFactory.provider_keys)
    by (apply list_elem_of_further, list_elem_of_here).
  split; [exact Hreg|].
  exact (proj1 (proj2 (provider_is_case_insensitive Sample.installed Sample.nowhere
                         ∅ "QWEN") Hreg)).
Defined.

Lemma base_url_reaches_only_ollama_witness :
  VisionModelFactory.provider_class
    (str_lower Sample.installed (dict_get MoreSamples.local_llava "provider" "openai"))
    = Some OllamaCV
  /\ exists inst,
       VisionModelFactory.create_model Sample.installed
         (<[ "base_url" := "http://gpu:11434" ]> MoreSamples.local_llava)
         = Returned inst
       /\ client inst = OllamaClient "http://gpu:11434".
Proof.
  split; [reflexivity|].
  exact (proj2 (base_url_reaches_only_ollama Sample.installed MoreSamples.local_llava
                  OllamaCV "http://gpu:11434" eq_refl) eq_refl eq_refl).
Defined.

Lemma string_config_resolution_witness :
  (str_lower Sample.installed "models.yaml" ∉ VisionModelFactory.provider_keys)
  /\ create_vision_model Sample.installed Sample.nowhere (ConfigStr "models.yaml")
     = Raised (mkExn ValueError
                 "Failed to load config from models.yaml: Connection refused").
Proof.
  assert (Hunknown :
    str_lower Sample.installed "models.yaml" ∉ VisionModelFactory.provider_keys)
    by (apply (bool_decide_eq_false_1 _); reflexivity).
  split; [exact Hunknown|].
  pose proof (string_config_resolution Sample.installed Sample.nowhere "models.yaml"
                Hunknown) as Hresolved.
  destruct (create_vision_model Sample.installed Sample.nowhere
              (ConfigStr "models.yaml")) as [inst|e].
  - discriminate Hresolved.
  - destruct Hresolved as (_ & cause & Hcause & ->).
    rewrite <- Hcause. reflexivity.
Defined.

Lemma create_from_env_provider_witness :
  VisionModelFactory.getenv Sample.nowhere "DEEPDOC_VISION_PROVIDER" = None
  /\ VisionModelFactory.getenv MoreSamples.with_key "DEEPDOC_VISION_PROVIDER" = None
  /\ VisionModelFactory.create_from_env Sample.keyed Sample.nowhere
     = Raised Sample.key_required
  /\ exists inst,
       VisionModelFactory.create_from_env Sample.keyed MoreSamples.with_key
         = Returned inst
       /\ cls inst = GptV4
       /\ model_name inst = "gpt-4-vision-preview"
       /\ key inst = Some "sk-test".
Proof.
  split; [reflexivity|]. split; [reflexivity|]. split.
  - exact (proj1 (proj2 (create_from_env_provider Sample.keyed Sample.nowhere))
             eq_refl).
  - destruct (proj1 (proj2 (create_from_env_provider Sample.keyed MoreSamples.with_key))
                eq_refl) as (inst & Hcreate & Hcls & Hname & Hkey & _).
    exists inst. repeat split; assumption.
Defined.


Lemma ensure_keeps_coherent_witness :
  coherent NltkManager.initial
  /\ coherent MoreSamples.gave_up
  /\ "punkt" ∈ NltkManager._downloaded_resources MoreSamples.gave_up.
Proof.
  assert (Hinitial : coherent NltkManager.initial)
    by (intros rp dn Hneg;
        change (NltkManager.cache NltkManager.initial)
          with (∅ : gmap (string * string) bool) in Hneg;
        rewrite lookup_empty in Hneg; discriminate Hneg).
  assert (Hcall :
    NltkManager.ensure_nltk_resource MoreSamples.offline "tokenizers/punkt" "punkt"
      NltkManager.initial tt = (false, MoreSamples.gave_up, tt))
    by (vm_compute; reflexivity).
  destruct (ensure_keeps_coherent MoreSamples.offline "tokenizers/punkt" "punkt"
              NltkManager.initial tt false MoreSamples.gave_up tt Hinitial Hcall)
    as (Hcoherent & _ & _ & Hrecorded).
  split; [exact Hinitial | split; [exact Hcoherent | exact (Hrecorded eq_refl)]].
Defined.

Lemma each_name_is_downloaded_once_witness :
  recorded NltkManager.initial []
  /\ NoDup (snd (snd (NltkManager.collect_missing (recording MoreSamples.offline)
                        [("tokenizers/punkt", "punkt");
                         ("tokenizers/punkt_tab", "punkt");
                         ("tokenizers/punkt", "punkt")]
                        NltkManager.initial (tt, [])))).
Proof.
  assert (Hinitial : recorded NltkManager.initial [])
    by (split; [apply NoDup_nil_2 | intros name Hname; now apply elem_of_nil in Hname]).
  split; [exact Hinitial|].
  destruct (NltkManager.collect_missing (recording MoreSamples.offline)
              [("tokenizers/punkt", "punkt"); ("tokenizers/punkt_tab", "punkt");
               ("tokenizers/punkt", "punkt")]
              NltkManager.initial (tt, [])) as [[missing st] [w log]] eqn:Hrun.
  exact (proj1 (each_name_is_downloaded_once MoreSamples.offline _ _ _ _ _ _ _ _
                  Hinitial Hrun)).
Defined.


Lemma get_text_empty_bytes_witness :
  ParserUtils.falsy (Some [x41]%byte) = false
  /\ ParserUtils.get_text (ParserUtils.mkCodecs (fun _ => "utf-8") (fun _ _ => "A")
                             (fun _ => Some "A"))
       ∅ "missing.txt" (Some [x41]%byte)
     = Done "A".
Proof.
  split; [reflexivity|].
  exact (proj2 (proj2 (get_text_empty_bytes
                         (ParserUtils.mkCodecs (fun _ => "utf-8") (fun _ _ => "A")
                            (fun _ => Some "A")) ∅ "missing.txt"))
           [x41]%byte ∅ "missing.txt" eq_refl).
Defined.

Lemma image2base64_is_injective_witness :
  image_bytes (AsBytesIO (mkBytesIO Sample.jpeg 3)) = Some Sample.jpeg
  /\ fst (Base.image2base64 (AsBytesIO (mkBytesIO Sample.jpeg 3)))
     = fst (Base.image2base64 (AsBytes Sample.jpeg))
  /\ Sample.jpeg = Sample.jpeg.
Proof.
  split; [reflexivity | split; [reflexivity|]].
  exact (image2base64_is_injective (AsBytesIO (mkBytesIO Sample.jpeg 3))
           (AsBytes Sample.jpeg) Sample.jpeg Sample.jpeg eq_refl eq_refl eq_refl).
Defined.
